(** * bharat-ai-hub: the two model pipelines, embedded and verified

    Shallow embedding of [src/ml/models/health-diagnosis.py] and
    [src/ml/models/demand-forecasting.py].

    Conventions of the embedding:
    - Python exceptions are values of [exn]; a computation that may raise
      returns an [outcome]; a method that may also mutate [self], its
      argument or the outside world is a function in the monad [M].
    - float64 values are idealised as rationals ([Q]): the order of the
      arithmetic operations is the one of the code, rounding is not modelled.
    - Third-party library objects (fitted scikit-learn estimators, Keras
      networks) are represented by the functions their methods compute;
      library functions whose result the code only passes along
      ([str.lower], [json.loads], [pd.to_datetime], ...) are section
      variables.
    - Logging calls are not modelled. *)

From Stdlib Require Import QArith.
From stdpp Require Import gmap strings list fin_maps.

Local Open Scope string_scope.
#[local] Set Warnings "-clear-no-such-hyp".
#[local] Set Default Proof Using "Type*".

(** ** Python base: exceptions, outcomes, the state-and-exception monad *)

Module Py.

Inductive exn_class :=
  | ValueError | KeyError | TypeError | IndexError | AttributeError
  | NotFittedError | JSONDecodeError | ClientError | OSError.

(** An exception instance; [exn_msg] is what [str(e)] returns. *)
Record exn := Exn { exn_cls : exn_class; exn_msg : string }.

Inductive outcome (A : Type) :=
  | Ok (a : A)
  | Raise (e : exn).
Arguments Ok {A} a.
Arguments Raise {A} e.

Definition obind {A B} (o : outcome A) (k : A → outcome B) : outcome B :=
  match o with
  | Ok a => k a
  | Raise e => Raise e
  end.

(** [[f(x) for x in l]] when [f] may raise: stops at the first exception. *)
Fixpoint map_ok {A B} (f : A → outcome B) (l : list A) : outcome (list B) :=
  match l with
  | [] => Ok []
  | x :: l' => obind (f x) (λ y, obind (map_ok f l') (λ ys, Ok (y :: ys)))
  end.

(** A method body: reads and writes a state [S], returns or raises. State
    changes made before an exception is raised persist. *)
Definition M (S A : Type) : Type := S → outcome A * S.

Definition ret {S A} (a : A) : M S A := λ s, (Ok a, s).
Definition raise {S A} (e : exn) : M S A := λ s, (Raise e, s).
Definition bind {S A B} (m : M S A) (k : A → M S B) : M S B :=
  λ s, match m s with
       | (Ok a, s') => k a s'
       | (Raise e, s') => (Raise e, s')
       end.
Definition get {S} : M S S := λ s, (Ok s, s).
Definition put {S} (s : S) : M S unit := λ _, (Ok tt, s).
Definition modify {S} (f : S → S) : M S unit := λ s, (Ok tt, f s).
Definition lift {S A} (o : outcome A) : M S A := λ s, (o, s).

Definition is_ok {A} (o : outcome A) : bool :=
  match o with
  | Ok _ => true
  | Raise _ => false
  end.

(** [try: body except Exception as e: handler(e)] *)
Definition try_except {S A} (body : M S A) (handler : exn → M S A) : M S A :=
  λ s, match body s with
       | (Ok a, s') => (Ok a, s')
       | (Raise e, s') => handler e s'
       end.

(** [for x in l: body(x)] *)
Fixpoint for_each {S A} (l : list A) (body : A → M S unit) : M S unit :=
  match l with
  | [] => ret tt
  | x :: l' => bind (body x) (λ _, for_each l' body)
  end.

(** [[f(x) for x in l]] for a stateful [f]. *)
Fixpoint mapM {S A B} (f : A → M S B) (l : list A) : M S (list B) :=
  match l with
  | [] => ret []
  | x :: l' => bind (f x) (λ y, bind (mapM f l') (λ ys, ret (y :: ys)))
  end.

(** A computation that leaves the state as it found it, whether it returns
    or raises. *)
Definition readonly {S A} (m : M S A) : Prop := ∀ s, (m s).2 = s.

(** A computation whose final state is always related to its initial state
    by [R], whether it returns or raises. *)
Definition preserves {S A} (R : S → S → Prop) (m : M S A) : Prop :=
  ∀ s, R s (m s).2.

(** Two runs, from the states [s1] and [s2], that end with the same outcome
    and in states related by [P]. *)
Definition agree_at {S A} (P : S → S → Prop) (m1 m2 : M S A) (s1 s2 : S) : Prop :=
  (m1 s1).1 = (m2 s2).1 ∧ P (m1 s1).2 (m2 s2).2.

(** Two computations that agree from any two states related by [P]. *)
Definition agree {S A} (P : S → S → Prop) (m1 m2 : M S A) : Prop :=
  ∀ s1 s2, P s1 s2 → agree_at P m1 m2 s1 s2.

(** JSON documents, which are also the cells of the tables built from them. *)
#[local] Set Warnings "-register-all".
Inductive json :=
  | JNull
  | JBool (b : bool)
  | JInt (z : Z)
  | JNum (q : Q)
  | JStr (s : string)
  | JArr (l : list json)
  | JObj (kv : list (string * json)).

(** Python distinguishes [int] from [float] in a decoded document: [JInt] is
    an [int], [JNum] a [float]. [JNull] also stands for a missing cell (NaN)
    of a table. *)

(** [d[key]] on a decoded JSON value. *)
Definition json_getitem (d : json) (key : string) : outcome json :=
  match d with
  | JObj kv =>
      match fold_left (λ d p, <[p.1 := p.2]> d) kv (∅ : gmap string json) !! key with
      | Some v => Ok v
      | None => Raise (Exn KeyError ("'" ++ key ++ "'"))
      end
  | JArr _ => Raise (Exn TypeError "list indices must be integers or slices, not str")
  | JStr _ => Raise (Exn TypeError "string indices must be integers, not 'str'")
  | _ => Raise (Exn TypeError "object is not subscriptable")
  end.

(** A Python [dict] with string keys built from key-value pairs in order:
    a later pair overwrites an earlier one with the same key. *)
Definition dict_of {V} (kv : list (string * V)) : gmap string V :=
  fold_left (λ d p, <[p.1 := p.2]> d) kv ∅.

(** [needle in hay] on [str]. *)
Fixpoint contains (needle hay : string) : bool :=
  if String.prefix needle hay then true
  else match hay with
       | EmptyString => false
       | String _ rest => contains needle rest
       end.

End Py.

Import Py.

Notation "x <- m ;; k" := (Py.bind m (λ x, k))
  (at level 100, m at next level, right associativity, only parsing).
Notation "m ;;; k" := (Py.bind m (λ _, k))
  (at level 100, right associativity, only parsing).


(** ** numpy: the array functions the two files call *)

Module Np.

Abbreviation matrix := (list (list Q)).

(** The sorted list of distinct values of [l] ([np.unique]). *)
Fixpoint insert_unique (x : Z) (l : list Z) : list Z :=
  match l with
  | [] => [x]
  | y :: l' =>
      if (x <? y)%Z then x :: y :: l'
      else if (x =? y)%Z then y :: l'
      else y :: insert_unique x l'
  end.

Definition unique (l : list Z) : list Z := foldr insert_unique [] l.

Definition count (x : Z) (l : list Z) : nat :=
  length (filter (λ y, y = x) l).

(** [np.unique(votes, return_counts=True)]: the sorted distinct values and
    how often each occurs. *)
Definition unique_counts (votes : list Z) : list Z * list nat :=
  let u := unique votes in (u, map (λ x, count x votes) u).

(** Scan for the first index holding the largest value; [best_i] holds
    [best], the largest value seen before index [i]. *)
Fixpoint argmax_from (best_i best i : nat) (l : list nat) : nat :=
  match l with
  | [] => best_i
  | x :: l' =>
      if (best <? x)%nat then argmax_from i x (S i) l'
      else argmax_from best_i best (S i) l'
  end.

(** [np.argmax]: index of the first maximum; raises on an empty array. *)
Definition argmax (l : list nat) : outcome nat :=
  match l with
  | [] => Raise (Exn ValueError "attempt to get argmax of an empty sequence")
  | x :: l' => Ok (argmax_from 0 x 1 l')
  end.

(** [a[i]] on a one-dimensional array, [i] non-negative. *)
Definition getitem {A} (a : list A) (i : nat) : outcome A :=
  match a !! i with
  | Some x => Ok x
  | None => Raise (Exn IndexError "index out of bounds")
  end.

(** [a[-1]]. *)
Definition getitem_last {A} (a : list A) : outcome A :=
  match last a with
  | Some x => Ok x
  | None => Raise (Exn IndexError "index -1 is out of bounds for axis 0 with size 0")
  end.

(** [np.array(rows)] for a list of one-dimensional arrays: the rows must
    have one common length for the result to have a second axis. *)
Definition array2 {A} (rows : list (list A)) : outcome (list (list A)) :=
  match rows with
  | [] => Ok []
  | r :: _ =>
      if forallb (λ r', (length r' =? length r)%nat) rows then Ok rows
      else Raise (Exn ValueError "setting an array element with a sequence: inhomogeneous shape")
  end.

(** [a.shape[1]] of a two-dimensional array with at least one row. *)
Definition shape1 {A} (a : list (list A)) : outcome nat :=
  match a with
  | [] => Raise (Exn IndexError "tuple index out of range")
  | r :: _ => Ok (length r)
  end.

(** [a[:, i]] for [i] below [a.shape[1]]. *)
Definition column {A} (i : nat) (a : list (list A)) : list A :=
  omap (λ r : list A, r !! i) a.

(** [a[i, j]], if the array has that entry. *)
Definition entry (a : matrix) (i j : nat) : option Q := a !! i ≫= (.!! j).

Definition Qgtb (a b : Q) : bool := negb (Qle_bool a b).

(** [np.max] of a one-dimensional array. *)
Definition amax (l : list Q) : outcome Q :=
  match l with
  | [] => Raise (Exn ValueError "zero-size array to reduction operation maximum which has no identity")
  | x :: l' => Ok (fold_left (λ m y, if Qgtb y m then y else m) l' x)
  end.

Definition same_shape (a b : matrix) : bool :=
  (length a =? length b)%nat
  && forallb (λ p : list Q * list Q, (length p.1 =? length p.2)%nat) (zip a b).

Definition rectangular (a : matrix) : bool :=
  match a with
  | [] => true
  | r :: _ => forallb (λ r' : list Q, (length r' =? length r)%nat) a
  end.

Definition zeros_like (a : matrix) : matrix := map (map (λ _, 0%Q)) a.

Definition madd (a b : matrix) : matrix := zip_with (zip_with Qplus) a b.

(** The result of [np.mean] over a list of arrays: numpy returns the scalar
    NaN (and warns) when the list is empty. *)
Inductive mean_result :=
  | NaN
  | Arr (m : matrix).

(** [np.mean(arrays, axis=0)] for two-dimensional arrays: the arrays are
    stacked (which needs one common shape), added up along the first axis
    starting from the additive identity, and divided by their number. *)
Definition mean_axis0 (arrays : list matrix) : outcome mean_result :=
  match arrays with
  | [] => Ok NaN
  | a :: _ =>
      if forallb (λ b, rectangular b && same_shape a b) arrays then
        let total := fold_left madd arrays (zeros_like a) in
        Ok (Arr (map (map (λ x, x / inject_Z (Z.of_nat (length arrays)))%Q) total))
      else Raise (Exn ValueError "setting an array element with a sequence: inhomogeneous shape")
  end.

(** [np.roll(a, -1, axis)] along the axis that [a] lists. *)
Definition roll_left {A} (a : list A) : list A :=
  match a with
  | [] => []
  | x :: a' => (a' ++ [x])%list
  end.

(** [a[-1] = x]. *)
Definition setitem_last {A} (a : list A) (x : A) : outcome (list A) :=
  match a with
  | [] => Raise (Exn IndexError "index -1 is out of bounds for axis 1 with size 0")
  | _ => Ok (<[pred (length a) := x]> a)
  end.

(** [a[0] = x]. *)
Definition setitem_first {A} (a : list A) (x : A) : outcome (list A) :=
  match a with
  | [] => Raise (Exn IndexError "index 0 is out of bounds for axis 0 with size 0")
  | _ :: a' => Ok (x :: a')
  end.

(** Split a flat buffer into [rows] rows of [cols] entries. *)
Fixpoint chunks {A} (rows cols : nat) (flat : list A) : list (list A) :=
  match rows with
  | O => []
  | S rows' => take cols flat :: chunks rows' cols (drop cols flat)
  end.

(** [a.reshape(1, rows, cols)] of a two-dimensional array; the leading axis
    of size one is left implicit in the result. *)
Definition reshape {A} (rows cols : nat) (a : list (list A)) : outcome (list (list A)) :=
  let flat := concat a in
  if (length flat =? rows * cols)%nat then Ok (chunks rows cols flat)
  else Raise (Exn ValueError "cannot reshape array into the requested shape").

End Np.

(** ** Third-party functions taken as given *)

(** Functions of the Python runtime, pandas, numpy and Keras whose results
    the two files only pass along. Every definition and theorem below holds
    for whatever these compute. *)
Class Libs := {
  (** [s.lower()] *)
  str_lower : string → string;
  (** [str(x)] for a cell that is not a [str] *)
  py_str : json → string;
  (** [np.argsort] of a one-dimensional array *)
  argsort : list Q → list nat;
  (** conversion of a table cell to float64 when an estimator validates its
      input *)
  as_float : json → outcome Q;
  (** [pd.to_datetime] of one cell, as nanoseconds since the epoch *)
  to_datetime : json → outcome Z;
  (** [.dt.dayofweek] and [.dt.month] of a timestamp *)
  dayofweek : Z → Z;
  month : Z → Z;
}.

(** ** pandas: tables *)

Module Pd.

(** A table: [nrows] rows, and for every column name the cells of that
    column from the first row to the last. *)
Record DataFrame := {
  nrows : nat;
  columns : gmap string (list json);
}.

(** Every column has one cell per row. *)
Definition wf (df : DataFrame) : Prop :=
  ∀ k col, columns df !! k = Some col → length col = nrows df.

(** The rows that [df.iterrows()] yields: row [i] maps each column name to
    the cell of that column in row [i]. *)
Definition iterrows (df : DataFrame) : list (gmap string json) :=
  map (λ i, omap (λ col : list json, col !! i) (columns df)) (seq 0 (nrows df)).

(** [row.get(key, default)] *)
Definition row_get (row : gmap string json) (key : string) (dflt : json) : json :=
  default dflt (row !! key).

(** [pd.DataFrame(records)] for a list of dicts: one row per dict, one
    column per key that occurs, a missing cell where a dict lacks the key. *)
Definition from_records (records : list (gmap string json)) : DataFrame :=
  let keys : gset string := ⋃ (dom <$> records) in
  {| nrows := length records;
     columns := set_to_map (λ k, (k, (λ r : gmap string json, default JNull (r !! k)) <$> records)) keys |}.

(** [df[key]] *)
Definition getitem (df : DataFrame) (key : string) : outcome (list json) :=
  match columns df !! key with
  | Some col => Ok col
  | None => Raise (Exn KeyError ("'" ++ key ++ "'"))
  end.

(** [df[key] = col] for a column of cells *)
Definition setitem (df : DataFrame) (key : string) (col : list json) : outcome DataFrame :=
  if (length col =? nrows df)%nat then
    Ok {| nrows := nrows df; columns := <[key := col]> (columns df) |}
  else Raise (Exn ValueError "Length of values does not match length of index").

(** [df[key] = v] for a scalar [v], which fills the column *)
Definition setitem_scalar (df : DataFrame) (key : string) (v : json) : DataFrame :=
  {| nrows := nrows df; columns := <[key := replicate (nrows df) v]> (columns df) |}.

(** [df[keys].values]: the rows of the table restricted to [keys] *)
Definition values (df : DataFrame) (keys : list string) : outcome (list (list json)) :=
  obind (map_ok (getitem df) keys) (λ cols,
  Ok (map (λ i, omap (λ col : list json, col !! i) cols) (seq 0 (nrows df)))).

End Pd.

(** ** The environment of the two Lambda handlers *)

Class Host := {
  (** [json.loads] and [json.dumps] *)
  json_loads : string → outcome json;
  json_dumps : json → string;
  (** [datetime.now().isoformat()] at the time the handler answers *)
  now_isoformat : string;
  (** [boto3.client(service)], which fails without a configured region *)
  boto3_client : string → outcome unit;
  (** [pd.DataFrame(value)] for a decoded JSON value *)
  frame_of_json : json → outcome Pd.DataFrame;
}.

(** What a handler returns to the Lambda runtime. *)
Record response := {
  statusCode : Z;
  body : string;
}.

(** ** health-diagnosis.py *)

Module HealthDiagnosis.

(** A fitted or unfitted [StandardScaler], by what [transform] computes. *)
Record Scaler := { scaler_transform : Pd.DataFrame → outcome Np.matrix }.

(** [SelectKBest], by what [transform] computes. *)
Record Selector := { selector_transform : Np.matrix → outcome Np.matrix }.

(** A classifier, by what [predict] and [predict_proba] compute;
    [clf_predict_proba] is [None] for an object without that attribute. *)
Record Classifier := {
  clf_predict : Np.matrix → outcome (list Z);
  clf_predict_proba : option (Np.matrix → outcome Np.matrix);
}.

(** [LabelEncoder], by what [inverse_transform] computes. *)
Record LabelEncoder := { le_inverse_transform : list Z → outcome (list string) }.

Record HealthDiagnosisModel := {
  models : list (string * Classifier);
  scaler : Scaler;
  label_encoder : LabelEncoder;
  feature_selector : Selector;
  feature_names : option (list string);
  diagnosis_classes : option (list string);
}.

(** The objects a method can reach: [self] and the table its argument
    refers to. *)
Record world := {
  self : HealthDiagnosisModel;
  frame : Pd.DataFrame;
}.

Definition not_fitted (name : string) : exn :=
  Exn NotFittedError
    ("This " ++ name ++ " instance is not fitted yet. Call 'fit' with appropriate arguments before using this estimator.").

(** Estimators as their constructors leave them: every use before [fit]
    raises [NotFittedError]. *)
Definition new_classifier (name : string) : Classifier :=
  {| clf_predict := λ _, Raise (not_fitted name);
     clf_predict_proba := Some (λ _, Raise (not_fitted name)) |}.

Definition new_model : HealthDiagnosisModel :=
  {| models := [("random_forest", new_classifier "RandomForestClassifier");
                ("gradient_boosting", new_classifier "GradientBoostingClassifier");
                ("xgboost", new_classifier "XGBClassifier")];
     scaler := {| scaler_transform := λ _, Raise (not_fitted "StandardScaler") |};
     label_encoder := {| le_inverse_transform := λ _, Raise (not_fitted "LabelEncoder") |};
     feature_selector := {| selector_transform := λ _, Raise (not_fitted "SelectKBest") |};
     feature_names := None;
     diagnosis_classes := None |}.

Definition symptom_keywords : list (string * list string) :=
  [ ("fever", ["fever"; "temperature"; "hot"; "burning"]);
    ("cough", ["cough"; "coughing"; "throat"]);
    ("headache", ["headache"; "head pain"; "migraine"]);
    ("fatigue", ["tired"; "fatigue"; "weakness"; "exhausted"]);
    ("nausea", ["nausea"; "vomiting"; "sick"]);
    ("diarrhea", ["diarrhea"; "loose stool"; "stomach"]);
    ("chest_pain", ["chest pain"; "chest"; "heart"]);
    ("shortness_breath", ["breath"; "breathing"; "respiratory"]);
    ("dizziness", ["dizzy"; "dizziness"; "lightheaded"]);
    ("rash", ["rash"; "skin"; "itching"; "spots"]);
    ("joint_pain", ["joint"; "arthritis"; "stiff"]);
    ("abdominal_pain", ["abdominal"; "stomach pain"; "belly"]);
    ("back_pain", ["back pain"; "spine"; "lower back"]);
    ("muscle_pain", ["muscle"; "ache"; "sore"]);
    ("loss_appetite", ["appetite"; "eating"; "hunger"]) ].

Definition medical_conditions : list string :=
  ["diabetes"; "hypertension"; "heart_disease"; "asthma"].

Definition vitals : list string :=
  ["temperature"; "blood_pressure_systolic"; "blood_pressure_diastolic";
   "heart_rate"; "respiratory_rate"].

(** One result of [diagnose]. *)
Record diagnosis := {
  primary_diagnosis : string;
  confidence : Q;
  top_diagnoses : list (string * Q);
  risk_level : string;
}.

(** [diagnose] returns the single result itself when there is exactly one,
    and the list of results otherwise. *)
Inductive diagnose_result :=
  | Single (r : diagnosis)
  | Several (rs : list diagnosis).

Definition results_of (out : diagnose_result) : list diagnosis :=
  match out with
  | Single r => [r]
  | Several rs => rs
  end.

(** The argument of [diagnose]: a decoded JSON value, or the table the
    world holds. *)
Inductive patient_input :=
  | FromJson (j : json)
  | FromFrame.

Section methods.
Context `{!Libs}.

(** [any(keyword in text for keyword in keywords)] *)
Definition any_keyword (keywords : list string) (text : string) : bool :=
  existsb (λ keyword, contains keyword text) keywords.

Definition preprocess_symptoms (symptoms_text : json) : outcome (gmap string Z) :=
  match symptoms_text with
  | JStr text =>
      let symptoms_lower := str_lower text in
      Ok (fold_left
            (λ (features : gmap string Z) (entry : string * list string),
               <[entry.1 := Z.b2z (any_keyword entry.2 symptoms_lower)]> features)
            symptom_keywords ∅)
  | _ => Raise (Exn AttributeError "object has no attribute 'lower'")
  end.

(** [x.lower()] on a cell, which only a [str] has. *)
Definition cell_lower (x : json) : outcome string :=
  match x with
  | JStr s => Ok (str_lower s)
  | _ => Raise (Exn AttributeError "object has no attribute 'lower'")
  end.

(** [str(x)] on a cell. *)
Definition cell_str (x : json) : string :=
  match x with
  | JStr s => s
  | _ => py_str x
  end.

Definition flag (b : bool) : json := JInt (Z.b2z b).

(** The body of the loop of [prepare_features] for one row. *)
Definition feature_vector (row : gmap string json) : outcome (gmap string json) :=
  obind (cell_lower (Pd.row_get row "gender" (JStr ""))) (λ gender_m,
  obind (cell_lower (Pd.row_get row "gender" (JStr ""))) (λ gender_f,
  let fv : gmap string json :=
    <["gender_female" := flag (bool_decide (gender_f = "female"))]>
    (<["gender_male" := flag (bool_decide (gender_m = "male"))]>
    (<["age" := Pd.row_get row "age" (JInt 0)]> ∅)) in
  obind (match row !! "symptoms" with
         | Some symptoms =>
             obind (preprocess_symptoms symptoms) (λ symptom_features,
             Ok ((JInt <$> symptom_features) ∪ fv))
         | None => Ok fv
         end) (λ fv,
  let fv :=
    fold_left
      (λ (fv : gmap string json) condition,
         <["history_" ++ condition :=
             flag (contains condition
                     (str_lower (cell_str (Pd.row_get row "medical_history" (JStr "")))))]> fv)
      medical_conditions fv in
  let fv :=
    fold_left
      (λ (fv : gmap string json) vital, <[vital := Pd.row_get row vital (JInt 0)]> fv)
      vitals fv in
  Ok fv))).

Definition prepare_features : M world Pd.DataFrame :=
  w <- get;;
  features <- lift (map_ok feature_vector (Pd.iterrows (frame w)));;
  ret (Pd.from_records features).

(** The majority vote of [predict_ensemble] for one sample. *)
Definition majority_vote (votes : list Z) : outcome Z :=
  let '(unique, counts) := Np.unique_counts votes in
  obind (Np.argmax counts) (λ i, Np.getitem unique i).

Definition predict_ensemble (X : Pd.DataFrame) : M world (list Z) :=
  w <- get;;
  match models (self w) with
  | [] => raise (Exn ValueError "Models not trained")
  | _ =>
      X_scaled <- lift (scaler_transform (scaler (self w)) X);;
      X_selected <- lift (selector_transform (feature_selector (self w)) X_scaled);;
      predictions <- lift (map_ok (λ m : string * Classifier, clf_predict m.2 X_selected)
                                  (models (self w)));;
      predictions <- lift (Np.array2 predictions);;
      n <- lift (Np.shape1 predictions);;
      lift (map_ok (λ i, majority_vote (Np.column i predictions)) (seq 0 n))
  end.

(** The loop of [predict_proba_ensemble] that collects the probabilities of
    the models that have a [predict_proba]. *)
Fixpoint collect_probas (ms : list (string * Classifier)) (X_selected : Np.matrix)
  : outcome (list Np.matrix) :=
  match ms with
  | [] => Ok []
  | m :: ms' =>
      match clf_predict_proba m.2 with
      | Some predict_proba =>
          obind (predict_proba X_selected) (λ proba,
          obind (collect_probas ms' X_selected) (λ rest, Ok (proba :: rest)))
      | None => collect_probas ms' X_selected
      end
  end.

Definition predict_proba_ensemble (X : Pd.DataFrame) : M world Np.mean_result :=
  w <- get;;
  match models (self w) with
  | [] => raise (Exn ValueError "Models not trained")
  | _ =>
      X_scaled <- lift (scaler_transform (scaler (self w)) X);;
      X_selected <- lift (selector_transform (feature_selector (self w)) X_scaled);;
      all_probas <- lift (collect_probas (models (self w)) X_selected);;
      lift (Np.mean_axis0 all_probas)
  end.

(** [self.label_encoder.inverse_transform([label])[0]] *)
Definition decode (enc : LabelEncoder) (label : Z) : outcome string :=
  obind (le_inverse_transform enc [label]) (λ names, Np.getitem names 0).

Definition risk_of (confidence : Q) : string :=
  if Np.Qgtb confidence (8 # 10) then "high"
  else if Np.Qgtb confidence (6 # 10) then "medium"
  else "low".

(** The body of the loop of [diagnose] for one sample. *)
Definition diagnose_one (enc : LabelEncoder) (sample : Z * list Q) : outcome diagnosis :=
  let '(pred, proba) := sample in
  obind (decode enc pred) (λ diagnosis,
  obind (Np.amax proba) (λ confidence,
  let sorted := argsort proba in
  let top_indices := rev (drop (length sorted - 3) sorted) in
  obind (map_ok (λ idx : nat,
                   obind (decode enc (Z.of_nat idx)) (λ name,
                   obind (Np.getitem proba idx) (λ p, Ok (name, p))))
                top_indices) (λ top,
  Ok {| primary_diagnosis := diagnosis;
        confidence := confidence;
        top_diagnoses := top;
        risk_level := risk_of confidence |}))).

Definition diagnose (patient_data : patient_input) : M world diagnose_result :=
  match patient_data with
  | FromJson (JObj kv) =>
      modify (λ w, {| self := self w; frame := Pd.from_records [dict_of kv] |})
  | FromJson _ => raise (Exn AttributeError "object has no attribute 'iterrows'")
  | FromFrame => ret tt
  end;;;
  X <- prepare_features;;
  predictions <- predict_ensemble X;;
  probabilities <- predict_proba_ensemble X;;
  match probabilities with
  | Np.NaN => raise (Exn TypeError "zip argument #2 must support iteration")
  | Np.Arr probabilities =>
      w <- get;;
      results <- lift (map_ok (diagnose_one (label_encoder (self w)))
                              (zip predictions probabilities));;
      match results with
      | [r] => ret (Single r)
      | _ => ret (Several results)
      end
  end.

End methods.

Section handler.
Context `{!Libs, !Host}.

Definition encode_diagnosis (r : diagnosis) : json :=
  JObj [ ("primary_diagnosis", JStr (primary_diagnosis r));
         ("confidence", JNum (confidence r));
         ("top_diagnoses",
          JArr (map (λ t : string * Q,
                       JObj [("diagnosis", JStr t.1); ("probability", JNum t.2)])
                    (top_diagnoses r)));
         ("risk_level", JStr (risk_level r)) ].

Definition encode_result (out : diagnose_result) : json :=
  match out with
  | Single r => encode_diagnosis r
  | Several rs => JArr (map encode_diagnosis rs)
  end.

(** [HealthDiagnosisModel()]: the constructor ends by creating the S3
    client; the new object replaces [self] once it is built. *)
Definition init : M world unit :=
  lift (boto3_client "s3");;;
  modify (λ w, {| self := new_model; frame := frame w |}).

(** [json.loads(x)] for a value that may not be a [str]. *)
Definition loads (x : json) : outcome json :=
  match x with
  | JStr s => json_loads s
  | _ => Raise (Exn TypeError "the JSON object must be str, bytes or bytearray")
  end.

Definition disclaimer : string :=
  "This is an AI-generated preliminary assessment. Please consult a healthcare professional for proper medical advice.".

(** The [try] block of [lambda_handler]. *)
Definition handler_try (event : json) : M world response :=
  body_text <- lift (json_getitem event "body");;
  input_data <- lift (loads body_text);;
  init;;;
  diagnosis_result <- diagnose (FromJson input_data);;
  ret {| statusCode := 200;
         body := json_dumps (JObj [ ("diagnosis", encode_result diagnosis_result);
                                    ("model_version", JStr "1.0.0");
                                    ("timestamp", JStr now_isoformat);
                                    ("disclaimer", JStr disclaimer) ]) |}.

(** The [except Exception as e] block of [lambda_handler]. *)
Definition handler_except (e : exn) : M world response :=
  ret {| statusCode := 500;
         body := json_dumps (JObj [ ("error", JStr (exn_msg e));
                                    ("timestamp", JStr now_isoformat) ]) |}.

Definition lambda_handler (event : json) : M world response :=
  try_except (handler_try event) handler_except.

End handler.

End HealthDiagnosis.

(** ** demand-forecasting.py *)

Module DemandForecasting.

(** A Keras network, by what [predict] computes on a batch of windows. *)
Record KerasModel := {
  keras_predict : list Np.matrix → outcome Np.matrix;
}.


(** Building and fitting a network, taken as given. *)
Class Keras := {
  (** the compiled [Sequential] stack of [build_model] for an input of
      [sequence_length] rows of [features] entries, before any fitting *)
  keras_sequential : nat → nat → KerasModel;
  (** [model.fit(X, y, epochs, batch_size, validation_split)]: the network
      after fitting *)
  keras_fit : KerasModel → list Np.matrix → list Q → outcome KerasModel;
}.

(** scikit-learn's [MinMaxScaler] with the default range (0, 1): once
    fitted it holds [scale_] and [min_], one entry per column. *)
Record MinMaxScaler := {
  fitted : option (list Q * list Q);
}.

Record DemandForecastingModel := {
  sequence_length : nat;
  features : nat;
  model : option KerasModel;
  scaler : MinMaxScaler;
}.

(** What a local file or an S3 object holds. *)
Inductive file :=
  | FModel (m : KerasModel)
  | FData (s : string).

(** The effects on the outside world, in the order they happen. *)
Inductive event :=
  | Predicted
  | Saved (path : string)
  | Uploaded (path bucket key : string)
  | Downloaded (bucket key path : string).

(** The objects a method can reach: [self], the table its argument refers
    to, the local file system, the S3 buckets, and the log of effects. *)
Record world := {
  self : DemandForecastingModel;
  frame : Pd.DataFrame;
  fs : gmap string file;
  s3 : gmap (string * string) file;
  log : list event;
}.

Definition set_self (m : DemandForecastingModel) (w : world) : world :=
  {| self := m; frame := frame w; fs := fs w; s3 := s3 w; log := log w |}.
Definition set_frame (df : Pd.DataFrame) (w : world) : world :=
  {| self := self w; frame := df; fs := fs w; s3 := s3 w; log := log w |}.
Definition set_fs (f : gmap string file) (w : world) : world :=
  {| self := self w; frame := frame w; fs := f; s3 := s3 w; log := log w |}.
Definition set_s3 (b : gmap (string * string) file) (w : world) : world :=
  {| self := self w; frame := frame w; fs := fs w; s3 := b; log := log w |}.
Definition emit (e : event) (w : world) : world :=
  {| self := self w; frame := frame w; fs := fs w; s3 := s3 w; log := (log w ++ [e])%list |}.

Definition set_model (km : option KerasModel) (m : DemandForecastingModel)
  : DemandForecastingModel :=
  {| sequence_length := sequence_length m; features := features m;
     model := km; scaler := scaler m |}.
Definition set_scaler (sc : MinMaxScaler) (m : DemandForecastingModel)
  : DemandForecastingModel :=
  {| sequence_length := sequence_length m; features := features m;
     model := model m; scaler := sc |}.

(** [DemandForecastingModel(sequence_length, features)] *)
Definition new_model (sequence_length features : nat) : DemandForecastingModel :=
  {| sequence_length := sequence_length; features := features;
     model := None; scaler := {| fitted := None |} |}.

Definition feature_columns : list string :=
  ["sales"; "price"; "day_of_week"; "month"; "is_weekend"].

(** The columns that [prepare_data] assigns to in its argument. *)
Definition derived_columns : list string :=
  ["day_of_week"; "month"; "is_weekend"; "is_holiday"].

Definition local_path : string := "/tmp/demand_forecasting_model.h5".

(** What [prepare_data] reads: the table and [sequence_length]. *)
Definition same_input (w1 w2 : world) : Prop :=
  frame w1 = frame w2 ∧ sequence_length (self w1) = sequence_length (self w2).

(** What a run of [prepare_data] may change: the scaler of [self], and the
    columns that it assigns to in the table. An [is_holiday] column that
    the table already has keeps its cells. *)
Definition prepare_data_frame (w w' : world) : Prop :=
  sequence_length (self w')
    = sequence_length (self w)
  ∧ features (self w')
    = features (self w)
  ∧ model (self w')
    = model (self w)
  ∧ fs w' = fs w
  ∧ s3 w' = s3 w
  ∧ log w' = log w
  ∧ Pd.nrows (frame w') = Pd.nrows (frame w)
  ∧ (Pd.wf (frame w) → Pd.wf (frame w'))
  ∧ (∀ k, k ∉ derived_columns →
       Pd.columns (frame w') !! k
       = Pd.columns (frame w) !! k)
  ∧ (∀ col, Pd.columns (frame w) !! "is_holiday" = Some col →
       Pd.columns (frame w') !! "is_holiday" = Some col).

Definition Qmin2 (a b : Q) : Q := if Qle_bool a b then a else b.
Definition Qmax2 (a b : Q) : Q := if Qle_bool a b then b else a.

(** [a[lo:hi]] for [lo <= hi <= len(a)]. *)
Definition slice {A} (lo hi : nat) (a : list A) : list A :=
  take (hi - lo) (drop lo a).

Section methods.
Context `{!Libs, !Keras}.

(** [MinMaxScaler.fit_transform]: the fitted scaler and the scaled rows.
    A column without spread is scaled by 1. *)
Definition fit_transform (X : list (list json)) : outcome (MinMaxScaler * Np.matrix) :=
  obind (map_ok (map_ok as_float) X) (λ X,
  match X with
  | [] => Raise (Exn ValueError
            "Found array with 0 sample(s) while a minimum of 1 is required by MinMaxScaler.")
  | r :: rest =>
      let data_min := fold_left (zip_with Qmin2) rest r in
      let data_max := fold_left (zip_with Qmax2) rest r in
      let data_range := zip_with Qminus data_max data_min in
      let scale_ := map (λ d, 1 / (if Qeq_bool d 0 then 1 else d))%Q data_range in
      let min_ := zip_with (λ lo s, 0 - lo * s)%Q data_min scale_ in
      Ok ({| fitted := Some (scale_, min_) |},
          map (λ row, zip_with Qplus (zip_with Qmult row scale_) min_) X)
  end).

(** [MinMaxScaler.inverse_transform] *)
Definition inverse_transform (sc : MinMaxScaler) (X : Np.matrix) : outcome Np.matrix :=
  match fitted sc with
  | None => Raise (Exn NotFittedError
              "This MinMaxScaler instance is not fitted yet. Call 'fit' with appropriate arguments before using this estimator.")
  | Some (scale_, min_) =>
      match X with
      | [] => Raise (Exn ValueError
                "Found array with 0 sample(s) while a minimum of 1 is required.")
      | _ =>
          if forallb (λ row : list Q, (length row =? length scale_)%nat) X then
            Ok (map (λ row, zip_with Qdiv (zip_with Qminus row min_) scale_) X)
          else Raise (Exn ValueError "operands could not be broadcast together")
      end
  end.

(** [series.isin([5, 6]).astype(int)] on one cell *)
Definition is_weekend_cell (day : json) : json :=
  match day with
  | JInt z => JInt (Z.b2z ((z =? 5)%Z || (z =? 6)%Z))
  | JNum q => JInt (Z.b2z (Qeq_bool q 5 || Qeq_bool q 6))
  | _ => JInt 0
  end.

(** [data[key] = column] on the table the world holds *)
Definition assign (key : string) (col : list json) : M world unit :=
  w <- get;;
  df <- lift (Pd.setitem (frame w) key col);;
  modify (set_frame df).

(** [data[key]] on the table the world holds *)
Definition column_of (key : string) : M world (list json) :=
  w <- get;;
  lift (Pd.getitem (frame w) key).

(** The windows and targets that the loop of [prepare_data] appends, for
    [i] from [sequence_length] up to the number of scaled rows. *)
Definition sequences (sequence_length : nat) (scaled_data : Np.matrix)
  : outcome (list Np.matrix * list Q) :=
  let indices := seq sequence_length (length scaled_data - sequence_length) in
  obind (map_ok (λ i, obind (Np.getitem scaled_data i) (λ row, Np.getitem row 0)) indices)
    (λ y, Ok (map (λ i, slice (i - sequence_length) i scaled_data) indices, y)).

(** The first part of [prepare_data], up to [scaled_data]: feature
    engineering on the argument table, selection of the feature columns, and
    fitting the scaler of [self] on them. *)
Definition scale_features : M world Np.matrix :=
  (* Feature engineering *)
  dates <- column_of "date";;
  stamps <- lift (map_ok to_datetime dates);;
  assign "day_of_week" (map (λ t, JInt (dayofweek t)) stamps);;;
  dates <- column_of "date";;
  stamps <- lift (map_ok to_datetime dates);;
  assign "month" (map (λ t, JInt (month t)) stamps);;;
  days <- column_of "day_of_week";;
  assign "is_weekend" (map is_weekend_cell days);;;
  w <- get;;
  match Pd.columns (frame w) !! "is_holiday" with
  | Some holidays => assign "is_holiday" holidays
  | None => modify (set_frame (Pd.setitem_scalar (frame w) "is_holiday" (JInt 0)))
  end;;;
  (* Select features *)
  w <- get;;
  feature_data <- lift (Pd.values (frame w) feature_columns);;
  (* Scale features *)
  fit <- lift (fit_transform feature_data);;
  modify (λ w, set_self (set_scaler fit.1 (self w)) w);;;
  ret fit.2.

Definition prepare_data : M world (list Np.matrix * list Q) :=
  scaled_data <- scale_features;;
  (* Create sequences *)
  w <- get;;
  lift (sequences (sequence_length (self w)) scaled_data).

Definition build_model : M world KerasModel :=
  w <- get;;
  let km := keras_sequential (sequence_length (self w)) (features (self w)) in
  modify (λ w, set_self (set_model (Some km) (self w)) w);;;
  ret km.

Definition train : M world unit :=
  Xy <- prepare_data;;
  w <- get;;
  km <- match model (self w) with
        | None => build_model
        | Some km => ret km
        end;;
  km' <- lift (keras_fit km Xy.1 Xy.2);;
  modify (λ w, set_self (set_model (Some km') (self w)) w).

(** [range(n)] accepts an [int] (or a [bool]) only. *)
Definition range_length (n : json) : outcome nat :=
  match n with
  | JInt z => Ok (Z.to_nat z)
  | JBool b => Ok (if b then 1 else 0)
  | _ => Raise (Exn TypeError "object cannot be interpreted as an integer")
  end.

(** The loop of [predict], [n] iterations from the rolling window
    [current_sequence] and the predictions made so far. The window is the
    single element of the batch that the network is given. *)
Fixpoint forecast (km : KerasModel) (n : nat) (current_sequence : Np.matrix)
    (predictions : list Q) : M world (list Q) :=
  match n with
  | O => ret predictions
  | S n' =>
      (* Predict next value *)
      modify (emit Predicted);;;
      pred <- lift (keras_predict km [current_sequence]);;
      p <- lift (obind (Np.getitem pred 0) (λ row, Np.getitem row 0));;
      let predictions := (predictions ++ [p])%list in
      (* Update sequence for next prediction *)
      new_row <- lift (Np.getitem_last current_sequence);;
      new_row <- lift (Np.setitem_first new_row p);;
      (* Shift sequence and add new prediction *)
      let current_sequence := Np.roll_left current_sequence in
      current_sequence <- lift (Np.setitem_last current_sequence new_row);;
      forecast km n' current_sequence predictions
  end.

Definition predict (days_ahead : json) : M world (list Q) :=
  w <- get;;
  match model (self w) with
  | None => raise (Exn ValueError "Model not trained. Call train() first.")
  | Some km =>
      (* Prepare last sequence for prediction *)
      Xy <- prepare_data;;
      w <- get;;
      last <- lift (Np.getitem_last Xy.1);;
      last_sequence <- lift (Np.reshape (sequence_length (self w)) (features (self w)) last);;
      n <- lift (range_length days_ahead);;
      predictions <- forecast km n last_sequence [];;
      (* Inverse transform predictions *)
      w <- get;;
      match features (self w) with
      | O => raise (Exn IndexError "index 0 is out of bounds for axis 1 with size 0")
      | S k =>
          let dummy_array := map (λ p, p :: replicate k 0%Q) predictions in
          inv <- lift (inverse_transform (scaler (self w)) dummy_array);;
          ret (Np.column 0 inv)
      end
  end.

Definition save_model (s3_bucket model_key : string) : M world unit :=
  w <- get;;
  match model (self w) with
  | None => raise (Exn ValueError "No model to save")
  | Some km =>
      (* Save model locally first *)
      modify (λ w, emit (Saved local_path) (set_fs (<[local_path := FModel km]> (fs w)) w));;;
      (* Upload to S3 *)
      modify (λ w, emit (Uploaded local_path s3_bucket model_key)
                     (set_s3 (<[(s3_bucket, model_key) := FModel km]> (s3 w)) w))
  end.

Definition load_model (s3_bucket model_key : string) : M world unit :=
  w <- get;;
  (* Download from S3 *)
  match s3 w !! (s3_bucket, model_key) with
  | None => raise (Exn ClientError
              "An error occurred (404) when calling the HeadObject operation: Not Found")
  | Some f =>
      modify (λ w, emit (Downloaded s3_bucket model_key local_path)
                     (set_fs (<[local_path := f]> (fs w)) w));;;
      (* Load model *)
      match f with
      | FModel km => modify (λ w, set_self (set_model (Some km) (self w)) w)
      | FData _ => raise (Exn OSError "Unable to open file (file signature not found)")
      end
  end.

End methods.

Section handler.
Context `{!Libs, !Keras, !Host}.

(** [DemandForecastingModel()]: the constructor creates the two AWS
    clients; the new object replaces [self] once it is built. *)
Definition init : M world unit :=
  lift (boto3_client "s3");;;
  lift (boto3_client "sagemaker-runtime");;;
  modify (set_self (new_model 30 5)).

(** [json.loads(x)] for a value that may not be a [str]. *)
Definition loads (x : json) : outcome json :=
  match x with
  | JStr s => json_loads s
  | _ => Raise (Exn TypeError "the JSON object must be str, bytes or bytearray")
  end.

(** [d.get(key, default)] on a decoded JSON object *)
Definition json_get (d : json) (key : string) (dflt : json) : outcome json :=
  match d with
  | JObj kv => Ok (default dflt (dict_of kv !! key))
  | _ => Raise (Exn AttributeError "object has no attribute 'get'")
  end.

(** The [try] block of [lambda_handler]. *)
Definition handler_try (event : json) : M world response :=
  body_text <- lift (json_getitem event "body");;
  input_data <- lift (loads body_text);;
  init;;;
  load_model "bharat-ai-hub-models" "demand-forecasting/model.h5";;;
  rows <- lift (json_getitem input_data "data");;
  df <- lift (frame_of_json rows);;
  modify (set_frame df);;;
  days_ahead <- lift (json_get input_data "days_ahead" (JInt 7));;
  predictions <- predict days_ahead;;
  ret {| statusCode := 200;
         body := json_dumps (JObj [ ("predictions", JArr (JNum <$> predictions));
                                    ("model_version", JStr "1.0.0");
                                    ("timestamp", JStr now_isoformat) ]) |}.

(** The [except Exception as e] block of [lambda_handler]. *)
Definition handler_except (e : exn) : M world response :=
  ret {| statusCode := 500;
         body := json_dumps (JObj [ ("error", JStr (exn_msg e));
                                    ("timestamp", JStr now_isoformat) ]) |}.

Definition lambda_handler (event : json) : M world response :=
  try_except (handler_try event) handler_except.

End handler.

End DemandForecasting.

(** ** Reference instances of the third-party functions

    Small executable stand-ins, used to run the definitions above on
    concrete inputs. They cover ASCII text, integer timestamps and numeric
    cells. *)

Module Ref.

Definition lower_ascii (c : Ascii.ascii) : Ascii.ascii :=
  let n := Ascii.nat_of_ascii c in
  if (65 <=? n)%nat && (n <=? 90)%nat then Ascii.ascii_of_nat (n + 32) else c.

Fixpoint lower (s : string) : string :=
  match s with
  | EmptyString => EmptyString
  | String c s' => String (lower_ascii c) (lower s')
  end.

Definition str (x : json) : string :=
  match x with
  | JNull => "None"
  | JBool true => "True"
  | JBool false => "False"
  | JStr s => s
  | _ => ""
  end.

(** Insert index [i] into a list of indices sorted by their values in [a],
    after the indices of equal value. *)
Fixpoint insert_index (a : list Q) (i : nat) (sorted : list nat) : list nat :=
  match sorted with
  | [] => [i]
  | j :: rest =>
      if Np.Qgtb (default 0%Q (a !! j)) (default 0%Q (a !! i)) then i :: j :: rest
      else j :: insert_index a i rest
  end.

(** A stable argsort. *)
Definition stable_argsort (a : list Q) : list nat :=
  fold_left (λ sorted i, insert_index a i sorted) (seq 0 (length a)) [].

Definition float_of (x : json) : outcome Q :=
  match x with
  | JInt z => Ok (inject_Z z)
  | JNum q => Ok q
  | JBool b => Ok (inject_Z (Z.b2z b))
  | _ => Raise (Exn ValueError "could not convert string to float")
  end.

(** Integer cells are nanoseconds since 1970-01-01. *)
Definition timestamp_of (x : json) : outcome Z :=
  match x with
  | JInt z => Ok z
  | _ => Raise (Exn ValueError "Unknown datetime string format")
  end.

Definition ns_per_day : Z := 86400000000000.

(** Monday is 0; 1970-01-01 was a Thursday. *)
Definition weekday (t : Z) : Z := ((t / ns_per_day + 3) mod 7)%Z.

(** The month of the proleptic Gregorian calendar, 1 to 12. *)
Definition month_of (t : Z) : Z :=
  (let z := t / ns_per_day + 719468 in
   let era := z / 146097 in
   let doe := z - era * 146097 in
   let yoe := (doe - doe / 1460 + doe / 36524 - doe / 146096) / 365 in
   let doy := doe - (365 * yoe + yoe / 4 - yoe / 100) in
   let mp := (5 * doy + 2) / 153 in
   if mp <? 10 then mp + 3 else mp - 9)%Z.

#[export] Instance libs : Libs := {|
  str_lower := lower;
  py_str := str;
  argsort := stable_argsort;
  as_float := float_of;
  to_datetime := timestamp_of;
  dayofweek := weekday;
  month := month_of;
|}.

(** A network that forecasts, for every window of the batch, the first
    entry of the window's last row. *)
Definition persistence_net : DemandForecasting.KerasModel :=
  {| DemandForecasting.keras_predict := λ batch,
       map_ok (λ window : Np.matrix,
                 obind (Np.getitem_last window) (λ row,
                 obind (Np.getitem row 0) (λ v, Ok [v]))) batch |}.

#[export] Instance keras : DemandForecasting.Keras := {|
  DemandForecasting.keras_sequential := λ _ _, persistence_net;
  DemandForecasting.keras_fit := λ km _ _, Ok km;
|}.

(** A Keras whose [fit] rejects its data. *)
Definition failing_keras : DemandForecasting.Keras := {|
  DemandForecasting.keras_sequential := λ _ _, persistence_net;
  DemandForecasting.keras_fit := λ _ _ _,
    Raise (Exn ValueError "Expected input data to be non-empty.");
|}.

(** A fitted health model whose three classifiers answer with fixed labels
    and probabilities, whatever the input rows. *)
Definition constant_classifier (label : Z) (proba : list Q) : HealthDiagnosis.Classifier :=
  {| HealthDiagnosis.clf_predict := λ X, Ok (map (λ _, label) X);
     HealthDiagnosis.clf_predict_proba := Some (λ X, Ok (map (λ _, proba) X)) |}.

Definition class_names : list string := ["Gastroenteritis"; "Viral Infection"].

Definition fitted_model : HealthDiagnosis.HealthDiagnosisModel :=
  {| HealthDiagnosis.models :=
       [ ("random_forest", constant_classifier 1 [1 # 10; 9 # 10]);
         ("gradient_boosting", constant_classifier 1 [2 # 10; 8 # 10]);
         ("xgboost", constant_classifier 0 [6 # 10; 4 # 10]) ];
     HealthDiagnosis.scaler :=
       {| HealthDiagnosis.scaler_transform := λ df, Ok (replicate (Pd.nrows df) []) |};
     HealthDiagnosis.label_encoder :=
       {| HealthDiagnosis.le_inverse_transform := λ labels,
            map_ok (λ l : Z, Np.getitem class_names (Z.to_nat l)) labels |};
     HealthDiagnosis.feature_selector :=
       {| HealthDiagnosis.selector_transform := λ X, Ok X |};
     HealthDiagnosis.feature_names := None;
     HealthDiagnosis.diagnosis_classes := Some class_names |}.

Definition patient : json :=
  JObj [ ("age", JInt 42); ("gender", JStr "male");
         ("symptoms", JStr "Chest pain, shortness of breath, dizziness");
         ("medical_history", JStr "hypertension") ].

Definition empty_frame : Pd.DataFrame := {| Pd.nrows := 0; Pd.columns := ∅ |}.

Definition health_world : HealthDiagnosis.world :=
  {| HealthDiagnosis.self := fitted_model; HealthDiagnosis.frame := empty_frame |}.

(** A sales table of [n] consecutive days starting on 2024-01-01. *)
Definition day0 : Z := 19723.

Definition sales_frame (n : nat) : Pd.DataFrame :=
  {| Pd.nrows := n;
     Pd.columns :=
       <["date" := map (λ i, JInt ((day0 + Z.of_nat i) * ns_per_day)) (seq 0 n)]>
       (<["sales" := map (λ i, JInt (100 + 10 * Z.of_nat i)) (seq 0 n)]>
       (<["price" := map (λ i, JInt 50) (seq 0 n)]> ∅)) |}.

Definition demand_world (m : DemandForecasting.DemandForecastingModel) (n : nat)
  : DemandForecasting.world :=
  {| DemandForecasting.self := m;
     DemandForecasting.frame := sales_frame n;
     DemandForecasting.fs := ∅;
     DemandForecasting.s3 := ∅;
     DemandForecasting.log := [] |}.

End Ref.

(** ** Facts about the base definitions *)

Lemma prefix_app (k s : string) :
  String.prefix k s = true ↔ ∃ b, s = k ++ b.
Proof.
  revert s; induction k as [|c k IH]; intros [|d s]; simpl.
  - split; [intros _; by exists "" | done].
  - split; [intros _; by exists (String d s) | done].
  - split; [done | intros [b Hb]; discriminate].
  - destruct (Ascii.ascii_dec c d) as [->|Hne].
    + rewrite IH. split; intros [b Hb]; exists b; [by subst | by injection Hb].
    + split; [done | intros [b Hb]; by injection Hb].
Qed.

Lemma contains_unfold (k s : string) :
  contains k s =
  if String.prefix k s then true
  else match s with
       | EmptyString => false
       | String _ rest => contains k rest
       end.
Proof. by destruct s. Qed.

(** [contains] decides the substring relation. *)
Lemma contains_spec (k s : string) :
  contains k s = true ↔ ∃ a b, s = a ++ k ++ b.
Proof.
  induction s as [|c s IH]; rewrite contains_unfold.
  - destruct (String.prefix k "") eqn:Hp.
    + split; [intros _ | done].
      apply prefix_app in Hp as [b Hb]. by exists "", b.
    + split; [done|]. intros ([|? a] & b & Hab); [|discriminate].
      simpl in Hab. assert (String.prefix k "" = true) by (apply prefix_app; eauto).
      congruence.
  - destruct (String.prefix k (String c s)) eqn:Hp.
    + split; [intros _ | done].
      apply prefix_app in Hp as [b Hb]. by exists "", b.
    + rewrite IH. split.
      * intros (a & b & ->). by exists (String c a), b.
      * intros ([|d a] & b & Hab); simpl in Hab.
        -- assert (String.prefix k (String c s) = true) by (apply prefix_app; eauto).
           congruence.
        -- injection Hab as -> ->. by exists a, b.
Qed.

Example contains_examples :
  contains "chest" "sharp chest pain" = true ∧ contains "fever" "no temperature" = false
  ∧ contains "" "" = true.
Proof. done. Qed.

Example lower_example : Ref.lower "Chest PAIN, Fever!" = "chest pain, fever!".
Proof. reflexivity. Qed.

Example weekday_month_examples :
  Ref.weekday (Ref.day0 * Ref.ns_per_day) = 0%Z ∧ Ref.month_of (Ref.day0 * Ref.ns_per_day) = 1%Z
  ∧ Ref.weekday ((Ref.day0 + 59) * Ref.ns_per_day) = 3%Z
  ∧ Ref.month_of ((Ref.day0 + 59) * Ref.ns_per_day) = 2%Z
  ∧ Ref.month_of ((Ref.day0 + 60) * Ref.ns_per_day) = 3%Z
  ∧ Ref.month_of (-1) = 12%Z.
Proof. vm_compute. done. Qed.

(** ** Running monadic code *)

Lemma run_bind {S A B} (m : M S A) (k : A → M S B) (s : S) :
  bind m k s = match m s with
               | (Ok a, s') => k a s'
               | (Raise e, s') => (Raise e, s')
               end.
Proof. reflexivity. Qed.

Lemma run_lift_bind {S A B} (o : outcome A) (k : A → M S B) (s : S) :
  bind (lift o) k s = match o with
                      | Ok a => k a s
                      | Raise e => (Raise e, s)
                      end.
Proof. unfold bind, lift. by destruct o. Qed.

Lemma run_get_bind {S B} (k : S → M S B) (s : S) : bind get k s = k s s.
Proof. reflexivity. Qed.

Lemma run_modify_bind {S B} (f : S → S) (k : unit → M S B) (s : S) :
  bind (modify f) k s = k tt (f s).
Proof. reflexivity. Qed.

Lemma run_ret_bind {S A B} (a : A) (k : A → M S B) (s : S) : bind (ret a) k s = k a s.
Proof. reflexivity. Qed.

(** A successful bind splits into a successful first step and a successful
    continuation. *)
Lemma bind_ok {S A B} (m : M S A) (k : A → M S B) (s s2 : S) (b : B) :
  bind m k s = (Ok b, s2) → ∃ a s1, m s = (Ok a, s1) ∧ k a s1 = (Ok b, s2).
Proof.
  unfold bind. destruct (m s) as [[a|e] s1]; [eauto | discriminate].
Qed.

Lemma lift_ok {S A} (o : outcome A) (s s' : S) (a : A) :
  lift o s = (Ok a, s') → o = Ok a ∧ s' = s.
Proof. unfold lift. intros [= -> ->]. done. Qed.

Lemma obind_ok {A B} (o : outcome A) (k : A → outcome B) (b : B) :
  obind o k = Ok b → ∃ a, o = Ok a ∧ k a = Ok b.
Proof. destruct o; simpl; [eauto | discriminate]. Qed.

(** [map_ok] succeeds when the function succeeds on every element, and then
    answers element by element. *)
Lemma map_ok_all {A B} (f : A → outcome B) (g : A → B) (l : list A) :
  (∀ x, x ∈ l → f x = Ok (g x)) → map_ok f l = Ok (map g l).
Proof.
  induction l as [|x l IH]; intros Hf; simpl; [done|].
  rewrite Hf by left. simpl. rewrite IH; [done|].
  intros y Hy. apply Hf. by right.
Qed.

Lemma map_ok_inv {A B} (f : A → outcome B) (l : list A) (ys : list B) :
  map_ok f l = Ok ys →
  length ys = length l ∧ ∀ i x, l !! i = Some x → ∃ y, ys !! i = Some y ∧ f x = Ok y.
Proof.
  revert ys; induction l as [|x l IH]; intros ys; simpl.
  - intros [= <-]. split; [done|]. intros i x Hx. by rewrite lookup_nil in Hx.
  - intros (y & Hy & Hrest)%obind_ok.
    apply obind_ok in Hrest as (ys' & Hys' & [= <-]).
    destruct (IH _ Hys') as [Hlen Hall]. split; [simpl; congruence|].
    intros [|i] z; simpl; [intros [= <-]; eauto | apply Hall].
Qed.

(** ** preprocess_symptoms *)

Section symptoms.
Context `{!Libs}.
Import HealthDiagnosis.

Lemma fold_insert_lookup {V W} (f : W → V) (l : list (string * W))
    (acc : gmap string V) (k : string) (w : W) :
  NoDup l.*1 → (k, w) ∈ l →
  fold_left (λ (m : gmap string V) (e : string * W), <[e.1 := f e.2]> m) l acc !! k
  = Some (f w).
Proof.
  revert acc; induction l as [|[k' w'] l IH]; intros acc Hnd Hin.
  - by apply elem_of_nil in Hin.
  - simpl in *. apply NoDup_cons in Hnd as [Hk' Hnd].
    apply elem_of_cons in Hin as [[= -> ->]|Hin]; [|by apply IH].
    clear IH. revert acc Hk'. induction l as [|[k2 w2] l IH2]; intros acc Hk'; simpl.
    + by rewrite lookup_insert_eq.
    + simpl in Hk'. apply not_elem_of_cons in Hk' as [Hne Hk'].
      apply NoDup_cons in Hnd as [_ Hnd].
      rewrite insert_insert_ne by done. by apply IH2.
Qed.

Lemma fold_insert_dom {V W} (f : W → V) (l : list (string * W)) (acc : gmap string V) :
  dom (fold_left (λ (m : gmap string V) (e : string * W), <[e.1 := f e.2]> m) l acc)
  = list_to_set l.*1 ∪ dom acc.
Proof.
  revert acc; induction l as [|[k w] l IH]; intros acc; simpl.
  - set_solver.
  - rewrite IH, dom_insert_L. set_solver.
Qed.

Lemma symptom_keywords_nodup : NoDup symptom_keywords.*1.
Proof. apply (bool_decide_unpack _). by vm_compute. Qed.

Lemma any_keyword_spec (keywords : list string) (text : string) :
  any_keyword keywords text = true
  ↔ ∃ keyword, keyword ∈ keywords ∧ ∃ a b, text = a ++ keyword ++ b.
Proof.
  unfold any_keyword. rewrite existsb_exists. split.
  - intros (kw & Hin & Hc). exists kw. split; [by apply list_elem_of_In|].
    by apply contains_spec.
  - intros (kw & Hin & Hc). exists kw. split; [by apply list_elem_of_In|].
    by apply contains_spec.
Qed.

(** C6. For every input text, [preprocess_symptoms] returns a mapping whose
    keys are exactly the 15 symptom categories; the flag of a category is 1
    if and only if one of its keywords is a substring of the lowercased
    text, and 0 otherwise. *)
Theorem preprocess_symptoms_flags (text : string) :
  ∃ features : gmap string Z,
    preprocess_symptoms (JStr text) = Ok features
    ∧ dom features = list_to_set symptom_keywords.*1
    ∧ size features = 15
    ∧ ∀ symptom keywords, (symptom, keywords) ∈ symptom_keywords →
        ∃ v : Z, features !! symptom = Some v
          ∧ (v = 1%Z ↔ ∃ keyword, keyword ∈ keywords
                        ∧ ∃ a b, str_lower text = a ++ keyword ++ b)
          ∧ (v = 0%Z ↔ ¬ ∃ keyword, keyword ∈ keywords
                          ∧ ∃ a b, str_lower text = a ++ keyword ++ b).
Proof.
  eexists. split; [reflexivity|].
  assert (Hdom : dom (fold_left
            (λ (features : gmap string Z) (entry : string * list string),
               <[entry.1 := Z.b2z (any_keyword entry.2 (str_lower text))]> features)
            symptom_keywords ∅) = list_to_set symptom_keywords.*1).
  { rewrite (fold_insert_dom (λ kws, Z.b2z (any_keyword kws (str_lower text)))).
    set_solver. }
  split; [exact Hdom|]. split.
  - rewrite <- size_dom, Hdom, size_list_to_set by apply symptom_keywords_nodup.
    reflexivity.
  - intros symptom keywords Hin.
    exists (Z.b2z (any_keyword keywords (str_lower text))). split.
    + apply (fold_insert_lookup (λ kws, Z.b2z (any_keyword kws (str_lower text))));
        [apply symptom_keywords_nodup | done].
    + rewrite <- any_keyword_spec.
      destruct (any_keyword keywords (str_lower text)); simpl; split; split;
        try done; intros Hn; by destruct Hn.
Qed.

End symptoms.

Example preprocess_symptoms_example :
  (λ features : gmap string Z,
     (features !! "chest_pain", features !! "shortness_breath", features !! "fever",
      features !! "dizziness", features !! "sneezing"))
  <$> match HealthDiagnosis.preprocess_symptoms (H := Ref.libs)
              (JStr "Chest pain, shortness of breath, dizziness") with
      | Ok features => Some features
      | Raise _ => None
      end
  = Some (Some 1%Z, Some 1%Z, Some 0%Z, Some 1%Z, None).
Proof. vm_compute. reflexivity. Qed.

(** ** Majority voting *)

Lemma insert_unique_elem (x y : Z) (l : list Z) :
  y ∈ Np.insert_unique x l ↔ y = x ∨ y ∈ l.
Proof.
  induction l as [|z l IH]; simpl.
  - set_solver.
  - destruct (Z.ltb_spec x z); [set_solver|].
    destruct (Z.eqb_spec x z) as [->|Hne]; [set_solver|].
    rewrite !elem_of_cons, IH. tauto.
Qed.

Lemma unique_elem (y : Z) (l : list Z) : y ∈ Np.unique l ↔ y ∈ l.
Proof.
  induction l as [|x l IH]; simpl; [done|].
  rewrite insert_unique_elem, IH, elem_of_cons. tauto.
Qed.

Lemma count_zero (x : Z) (l : list Z) : x ∉ l → Np.count x l = 0.
Proof.
  unfold Np.count. induction l as [|y l IH]; intros Hx; [done|].
  apply not_elem_of_cons in Hx as [Hne Hx].
  rewrite filter_cons_False by congruence. by apply IH.
Qed.

Lemma count_cons (x y : Z) (l : list Z) :
  Np.count x (y :: l) = (if decide (y = x) then 1 else 0) + Np.count x l.
Proof.
  unfold Np.count. rewrite filter_cons. by destruct (decide (y = x)).
Qed.

(** Two different labels cannot both gather more votes than there are. *)
Lemma count_two_labels (x y : Z) (l : list Z) :
  x ≠ y → (Np.count x l + Np.count y l ≤ length l)%nat.
Proof.
  intros Hne. induction l as [|z l IH]; [done|].
  rewrite !count_cons. simpl.
  destruct (decide (z = x)), (decide (z = y)); subst; try done; lia.
Qed.

(** [argmax_from] returns a position that holds the largest value among
    [best] and the values scanned. *)
Lemma argmax_from_spec (l : list nat) (best_i best i : nat) (seen : list nat) :
  length seen = i → seen !! best_i = Some best →
  (∀ j x, seen !! j = Some x → (x ≤ best)%nat) →
  ∃ m, (seen ++ l)%list !! Np.argmax_from best_i best i l = Some m
       ∧ ∀ j x, (seen ++ l)%list !! j = Some x → (x ≤ m)%nat.
Proof.
  revert best_i best i seen. induction l as [|y l IH]; intros best_i best i seen Hi Hb Hmax.
  - simpl. rewrite app_nil_r. eauto.
  - simpl. destruct (Nat.ltb_spec best y).
    + specialize (IH i y (S i) (seen ++ [y])%list).
      rewrite <- app_assoc in IH. apply IH.
      * rewrite length_app. simpl. lia.
      * rewrite lookup_app_r by lia. by replace (i - length seen) with 0 by lia.
      * intros j x Hj. apply lookup_app_Some in Hj as [Hj|[_ Hj]].
        -- apply Hmax in Hj. lia.
        -- apply list_lookup_singleton_Some in Hj as [_ <-]. done.
    + specialize (IH best_i best (S i) (seen ++ [y])%list).
      rewrite <- app_assoc in IH. apply IH.
      * rewrite length_app. simpl. lia.
      * apply lookup_app_l_Some. done.
      * intros j x Hj. apply lookup_app_Some in Hj as [Hj|[_ Hj]].
        -- by apply Hmax in Hj.
        -- apply list_lookup_singleton_Some in Hj as [_ <-]. done.
Qed.

Lemma argmax_spec (l : list nat) :
  l ≠ [] →
  ∃ i m, Np.argmax l = Ok i ∧ l !! i = Some m ∧ ∀ j x, l !! j = Some x → (x ≤ m)%nat.
Proof.
  destruct l as [|y l]; [done|]. intros _. simpl.
  destruct (argmax_from_spec l 0 y 1 [y]) as (m & Hm & Hmax); try done.
  - intros [|j] x; simpl; [by intros [= <-] | by rewrite lookup_nil].
  - exists (Np.argmax_from 0 y 1 l), m. done.
Qed.

(** The vote of [predict_ensemble] for one sample: a label that was cast,
    and that no label beats in number of votes. *)
Lemma majority_vote_spec (votes : list Z) :
  votes ≠ [] →
  ∃ v, HealthDiagnosis.majority_vote votes = Ok v
       ∧ v ∈ votes
       ∧ ∀ l, (Np.count l votes ≤ Np.count v votes)%nat.
Proof.
  intros Hne. unfold HealthDiagnosis.majority_vote, Np.unique_counts.
  assert (Hu : Np.unique votes ≠ []).
  { destruct votes as [|x votes]; [done|].
    intros Hnil. assert (x ∈ Np.unique (x :: votes)) as Hx by (apply unique_elem; left).
    rewrite Hnil in Hx. by apply elem_of_nil in Hx. }
  destruct (argmax_spec (map (λ x, Np.count x votes) (Np.unique votes)))
    as (i & m & -> & Hi & Hmax).
  { by destruct (Np.unique votes). }
  simpl. rewrite list_lookup_fmap in Hi.
  destruct (Np.unique votes !! i) as [v|] eqn:Hv; [|done].
  injection Hi as <-. exists v. unfold Np.getitem. rewrite Hv.
  split; [done|]. split.
  - apply unique_elem. by eapply list_elem_of_lookup_2.
  - intros l. destruct (decide (l ∈ votes)) as [Hl|Hl].
    + apply unique_elem, list_elem_of_lookup in Hl as [j Hj].
      apply (Hmax j). by rewrite list_lookup_fmap, Hj.
    + rewrite (count_zero l) by done. lia.
Qed.

(** A label that holds at least two of three votes wins. *)
Lemma majority_vote_two_of_three (votes : list Z) (v l : Z) :
  length votes = 3 →
  (∀ l', (Np.count l' votes ≤ Np.count v votes)%nat) →
  (2 ≤ Np.count l votes)%nat → v = l.
Proof.
  intros Hlen Hmax Hl. destruct (decide (v = l)) as [|Hne]; [done|].
  pose proof (count_two_labels v l votes Hne). specialize (Hmax l). lia.
Qed.

Example majority_vote_examples :
  HealthDiagnosis.majority_vote [2; 0; 2]%Z = Ok 2%Z
  ∧ HealthDiagnosis.majority_vote [1; 1; 0]%Z = Ok 1%Z
  ∧ HealthDiagnosis.majority_vote [3; 1; 2]%Z = Ok 1%Z
  ∧ Np.unique_counts [3; 1; 3; 2]%Z = ([1; 2; 3]%Z, [1; 1; 2]).
Proof. done. Qed.

Lemma map_ok_total {A B} (f : A → outcome B) (l : list A) :
  (∀ x, x ∈ l → ∃ y, f x = Ok y) → ∃ ys, map_ok f l = Ok ys.
Proof.
  induction l as [|x l IH]; intros Hf; simpl; [eauto|].
  destruct (Hf x) as [y ->]; [by left|].
  destruct IH as [ys ->]; [intros z Hz; apply Hf; by right|].
  simpl. eauto.
Qed.

(** ** predict_ensemble and predict_proba_ensemble *)

Section ensemble.
Context `{!Libs}.
Import HealthDiagnosis.

(** C1. With the three classifiers of the model fitted, [predict_ensemble]
    returns one label per sample; the label of sample [i] is one of the
    three predictions for [i], no label is predicted for [i] by more
    classifiers, and a label that at least two classifiers predict for [i]
    is the ensemble prediction. The model is left as it was. *)
Theorem predict_ensemble_majority (w : world) (X : Pd.DataFrame)
    (X_scaled X_selected : Np.matrix) (n1 n2 n3 : string) (rf gb xgb : Classifier)
    (p1 p2 p3 : list Z) :
  models (self w) = [(n1, rf); (n2, gb); (n3, xgb)] →
  scaler_transform (scaler (self w)) X = Ok X_scaled →
  selector_transform (feature_selector (self w)) X_scaled = Ok X_selected →
  clf_predict rf X_selected = Ok p1 →
  clf_predict gb X_selected = Ok p2 →
  clf_predict xgb X_selected = Ok p3 →
  length p2 = length p1 → length p3 = length p1 →
  ∃ ensemble : list Z,
    predict_ensemble X w = (Ok ensemble, w)
    ∧ length ensemble = length p1
    ∧ ∀ i a b c, p1 !! i = Some a → p2 !! i = Some b → p3 !! i = Some c →
        ∃ v, ensemble !! i = Some v
             ∧ v ∈ [a; b; c]
             ∧ (∀ l, (Np.count l [a; b; c] ≤ Np.count v [a; b; c])%nat)
             ∧ (∀ l, (2 ≤ Np.count l [a; b; c])%nat → v = l).
Proof.
  intros Hm Hsc Hsel H1 H2 H3 Hl2 Hl3.
  assert (Hcol : ∀ i, (i < length p1)%nat →
            ∃ a b c, p1 !! i = Some a ∧ p2 !! i = Some b ∧ p3 !! i = Some c
                     ∧ Np.column i [p1; p2; p3] = [a; b; c]).
  { intros i Hi.
    destruct (lookup_lt_is_Some_2 p1 i Hi) as [a Ha].
    destruct (lookup_lt_is_Some_2 p2 i) as [b Hb]; [lia|].
    destruct (lookup_lt_is_Some_2 p3 i) as [c Hc]; [lia|].
    exists a, b, c. unfold Np.column. simpl. by rewrite Ha, Hb, Hc. }
  destruct (map_ok_total (λ i, majority_vote (Np.column i [p1; p2; p3]))
              (seq 0 (length p1))) as [ensemble Hens].
  { intros i Hi. apply elem_of_seq in Hi.
    destruct (Hcol i) as (a & b & c & _ & _ & _ & ->); [lia|].
    destruct (majority_vote_spec [a; b; c]) as (v & Hv & _); [done|]. eauto. }
  exists ensemble.
  destruct (map_ok_inv _ _ _ Hens) as [Hlen Hall].
  rewrite length_seq in Hlen. split; [|split; [done|]].
  - unfold predict_ensemble. rewrite run_get_bind, Hm.
    rewrite run_lift_bind, Hsc, run_lift_bind, Hsel. simpl map_ok.
    rewrite H1, H2, H3. simpl obind.
    rewrite run_lift_bind. unfold Np.array2. cbn [forallb].
    rewrite Hl2, Hl3, Nat.eqb_refl. cbn [andb]. cbv beta iota.
    rewrite run_lift_bind. unfold Np.shape1. cbv beta iota.
    unfold lift, bind. cbv beta iota. by rewrite Hens.
  - intros i a b c Ha Hb Hc.
    assert (Hi : (i < length p1)%nat) by (by eapply lookup_lt_Some).
    destruct (Hall i i) as (v & Hv & Hmaj); [apply lookup_seq; lia|].
    destruct (Hcol i Hi) as (a' & b' & c' & Ha' & Hb' & Hc' & Hcoli).
    rewrite Hcoli in Hmaj.
    assert (a' = a) as -> by congruence. assert (b' = b) as -> by congruence.
    assert (c' = c) as -> by congruence.
    destruct (majority_vote_spec [a; b; c]) as (v' & Hv' & Hin & Hmax); [done|].
    assert (v' = v) as -> by congruence.
    exists v. split; [done|]. split; [done|]. split; [done|].
    intros l Hl. by apply (majority_vote_two_of_three [a; b; c]).
Qed.

End ensemble.

(** ** Averaging class probabilities *)

Lemma madd_entry (a b : Np.matrix) (i j : nat) :
  Np.entry (Np.madd a b) i j
  = x ← Np.entry a i j; y ← Np.entry b i j; Some (x + y)%Q.
Proof.
  unfold Np.entry, Np.madd. rewrite lookup_zip_with.
  destruct (a !! i) as [ra|]; simpl; [|done].
  destruct (b !! i) as [rb|]; simpl.
  - rewrite lookup_zip_with. done.
  - by destruct (ra !! j).
Qed.

Lemma zeros_like_entry (a : Np.matrix) (i j : nat) :
  Np.entry (Np.zeros_like a) i j = (λ _, 0%Q) <$> Np.entry a i j.
Proof.
  unfold Np.entry, Np.zeros_like. rewrite list_lookup_fmap.
  destruct (a !! i) as [ra|]; simpl; [|done]. by rewrite list_lookup_fmap.
Qed.

Lemma map_map_entry (f : Q → Q) (a : Np.matrix) (i j : nat) :
  Np.entry (map (map f) a) i j = f <$> Np.entry a i j.
Proof.
  unfold Np.entry. rewrite list_lookup_fmap.
  destruct (a !! i) as [ra|]; simpl; [|done]. by rewrite list_lookup_fmap.
Qed.

Lemma same_shape_length (a b : Np.matrix) :
  Np.same_shape a b = true → length a = length b.
Proof. unfold Np.same_shape. intros [Hl _]%andb_prop. by apply Nat.eqb_eq. Qed.

Lemma same_shape_refl (a : Np.matrix) : Np.same_shape a a = true.
Proof.
  unfold Np.same_shape. rewrite Nat.eqb_refl. simpl.
  induction a as [|r a IH]; simpl; [done|]. by rewrite Nat.eqb_refl.
Qed.

Lemma madd_length (a b : Np.matrix) :
  length a = length b → length (Np.madd a b) = length a.
Proof. intros Hl. unfold Np.madd. rewrite length_zip_with. lia. Qed.

(** The mean of three arrays of one shape, entry by entry: the entries are
    added to zero in the order of the arrays and the sum is divided by
    three. *)
Lemma mean_axis0_three (P1 P2 P3 : Np.matrix) :
  Np.rectangular P1 = true → Np.rectangular P2 = true → Np.rectangular P3 = true →
  Np.same_shape P1 P2 = true → Np.same_shape P1 P3 = true →
  ∃ E, Np.mean_axis0 [P1; P2; P3] = Ok (Np.Arr E)
       ∧ length E = length P1
       ∧ ∀ i j a b c,
           Np.entry P1 i j = Some a → Np.entry P2 i j = Some b → Np.entry P3 i j = Some c →
           Np.entry E i j = Some ((0 + a + b + c) / 3)%Q.
Proof.
  intros Hr1 Hr2 Hr3 Hs2 Hs3. unfold Np.mean_axis0. cbn [forallb].
  rewrite Hr1, Hr2, Hr3, Hs2, Hs3, same_shape_refl. cbn [andb].
  eexists. split; [reflexivity|]. split.
  - rewrite !length_map. cbn [fold_left].
    pose proof (same_shape_length _ _ Hs2). pose proof (same_shape_length _ _ Hs3).
    assert (L0 : length (Np.zeros_like P1) = length P1)
      by (unfold Np.zeros_like; by rewrite length_map).
    assert (L1 : length (Np.madd (Np.zeros_like P1) P1) = length P1)
      by (rewrite madd_length; done).
    assert (L2 : length (Np.madd (Np.madd (Np.zeros_like P1) P1) P2) = length P1)
      by (rewrite madd_length; congruence).
    rewrite madd_length; congruence.
  - intros i j a b c Ha Hb Hc. rewrite map_map_entry. cbn [fold_left].
    rewrite !madd_entry, zeros_like_entry, Ha, Hb, Hc. reflexivity.
Qed.

Section ensemble_proba.
Context `{!Libs}.
Import HealthDiagnosis.

(** C2. With the three classifiers of the model fitted and their
    class-probability matrices [P1], [P2], [P3] of one shape,
    [predict_proba_ensemble] returns a matrix with as many rows, whose entry
    for sample [i] and class [j] is the sum of the three models'
    probabilities at [(i, j)] divided by three. The model is left as it
    was. *)
Theorem predict_proba_ensemble_mean (w : world) (X : Pd.DataFrame)
    (X_scaled X_selected : Np.matrix) (n1 n2 n3 : string) (rf gb xgb : Classifier)
    (f1 f2 f3 : Np.matrix → outcome Np.matrix) (P1 P2 P3 : Np.matrix) :
  models (self w) = [(n1, rf); (n2, gb); (n3, xgb)] →
  scaler_transform (scaler (self w)) X = Ok X_scaled →
  selector_transform (feature_selector (self w)) X_scaled = Ok X_selected →
  clf_predict_proba rf = Some f1 → f1 X_selected = Ok P1 →
  clf_predict_proba gb = Some f2 → f2 X_selected = Ok P2 →
  clf_predict_proba xgb = Some f3 → f3 X_selected = Ok P3 →
  Np.rectangular P1 = true → Np.rectangular P2 = true → Np.rectangular P3 = true →
  Np.same_shape P1 P2 = true → Np.same_shape P1 P3 = true →
  ∃ ensemble_proba : Np.matrix,
    predict_proba_ensemble X w = (Ok (Np.Arr ensemble_proba), w)
    ∧ length ensemble_proba = length P1
    ∧ ∀ i j a b c,
        Np.entry P1 i j = Some a → Np.entry P2 i j = Some b → Np.entry P3 i j = Some c →
        ∃ e, Np.entry ensemble_proba i j = Some e ∧ (e == (a + b + c) / 3)%Q.
Proof.
  intros Hm Hsc Hsel Hf1 H1 Hf2 H2 Hf3 H3 Hr1 Hr2 Hr3 Hs2 Hs3.
  destruct (mean_axis0_three P1 P2 P3) as (E & Hmean & Hlen & Hent); try done.
  exists E. split; [|split; [done|]].
  - unfold predict_proba_ensemble. rewrite run_get_bind, Hm.
    rewrite run_lift_bind, Hsc, run_lift_bind, Hsel.
    cbn [collect_probas snd]. rewrite Hf1, H1, Hf2, H2, Hf3, H3. cbn [obind].
    rewrite run_lift_bind. unfold lift. by rewrite Hmean.
  - intros i j a b c Ha Hb Hc. eexists. split; [by apply Hent|].
    unfold Qdiv. ring.
Qed.

End ensemble_proba.

(** ** Read-only computations *)

Lemma readonly_ret {S A} (a : A) : readonly (@ret S A a).
Proof. done. Qed.

Lemma readonly_raise {S A} (e : exn) : readonly (@raise S A e).
Proof. done. Qed.

Lemma readonly_lift {S A} (o : outcome A) : readonly (@lift S A o).
Proof. done. Qed.

Lemma readonly_get {S} : readonly (@get S).
Proof. done. Qed.

Lemma readonly_bind {S A B} (m : M S A) (k : A → M S B) :
  readonly m → (∀ a, readonly (k a)) → readonly (bind m k).
Proof.
  intros Hm Hk s. unfold bind. specialize (Hm s).
  destruct (m s) as [[a|e] s1]; simpl in *; subst; [apply Hk | done].
Qed.

Lemma readonly_run {S A} (m : M S A) (s s' : S) (o : outcome A) :
  readonly m → m s = (o, s') → s' = s.
Proof. intros Hm Hrun. specialize (Hm s). by rewrite Hrun in Hm. Qed.

Ltac readonly_step :=
  first [ apply readonly_bind; [|intros ?]
        | apply readonly_ret | apply readonly_raise
        | apply readonly_lift | apply readonly_get ].

Section health_readonly.
Context `{!Libs}.
Import HealthDiagnosis.

Lemma prepare_features_readonly : readonly prepare_features.
Proof. unfold prepare_features. repeat readonly_step. Qed.

Lemma predict_ensemble_readonly (X : Pd.DataFrame) : readonly (predict_ensemble X).
Proof.
  unfold predict_ensemble. readonly_step; [readonly_step|].
  destruct (models (self a)); repeat readonly_step.
Qed.

Lemma predict_proba_ensemble_readonly (X : Pd.DataFrame) :
  readonly (predict_proba_ensemble X).
Proof.
  unfold predict_proba_ensemble. readonly_step; [readonly_step|].
  destruct (models (self a)); repeat readonly_step.
Qed.

End health_readonly.

(** ** diagnose: confidence and risk level *)

Lemma Qgtb_lt (a b : Q) : Np.Qgtb a b = true ↔ (b < a)%Q.
Proof.
  unfold Np.Qgtb. rewrite negb_true_iff, <- not_true_iff_false, Qle_bool_iff.
  split; [apply Qnot_le_lt | apply Qlt_not_le].
Qed.

Lemma Qgtb_le (a b : Q) : Np.Qgtb a b = false ↔ (a <= b)%Q.
Proof. unfold Np.Qgtb. by rewrite negb_false_iff, Qle_bool_iff. Qed.

Lemma amax_fold (l : list Q) (x : Q) :
  let m := fold_left (λ m y, if Np.Qgtb y m then y else m) l x in
  (m = x ∨ m ∈ l) ∧ (x <= m)%Q ∧ ∀ p, p ∈ l → (p <= m)%Q.
Proof.
  revert x; induction l as [|y l IH]; intros x; simpl.
  - split; [by left|]. split; [apply Qle_refl|]. intros p Hp. by apply elem_of_nil in Hp.
  - destruct (Np.Qgtb y x) eqn:Hyx.
    + destruct (IH y) as ([Hm|Hm] & Hle & Hall).
      * split; [right; rewrite Hm; left|]. apply Qgtb_lt in Hyx.
        split; [eapply Qle_trans; [apply Qlt_le_weak, Hyx | done]|].
        intros p [->|Hp]%elem_of_cons; [done | by apply Hall].
      * split; [right; by right|]. apply Qgtb_lt in Hyx.
        split; [eapply Qle_trans; [apply Qlt_le_weak, Hyx | done]|].
        intros p [->|Hp]%elem_of_cons; [done | by apply Hall].
    + destruct (IH x) as (Hm & Hle & Hall). apply Qgtb_le in Hyx.
      split; [destruct Hm; [by left | right; by right]|]. split; [done|].
      intros p [->|Hp]%elem_of_cons; [by eapply Qle_trans | by apply Hall].
Qed.

(** [np.max] returns an entry of the array that no entry exceeds. *)
Lemma amax_spec (l : list Q) (m : Q) :
  Np.amax l = Ok m → m ∈ l ∧ ∀ p, p ∈ l → (p <= m)%Q.
Proof.
  destruct l as [|x l]; simpl; [done|]. intros [= <-].
  destruct (amax_fold l x) as ([Hm|Hm] & Hle & Hall).
  - split; [rewrite Hm; left|]. intros p [->|Hp]%elem_of_cons; [done | by apply Hall].
  - split; [by right|]. intros p [->|Hp]%elem_of_cons; [done | by apply Hall].
Qed.

Lemma risk_of_spec (c : Q) :
  (HealthDiagnosis.risk_of c = "high" ↔ (8 # 10 < c)%Q)
  ∧ (HealthDiagnosis.risk_of c = "medium" ↔ (6 # 10 < c)%Q ∧ (c <= 8 # 10)%Q)
  ∧ (HealthDiagnosis.risk_of c = "low" ↔ (c <= 6 # 10)%Q).
Proof.
  unfold HealthDiagnosis.risk_of.
  destruct (Np.Qgtb c (8 # 10)) eqn:H8; [|destruct (Np.Qgtb c (6 # 10)) eqn:H6].
  - apply Qgtb_lt in H8. repeat split; try done.
    + intros [_ Hle]. by apply Qlt_not_le in H8.
    + intros Hle. exfalso. apply (Qlt_not_le _ _ H8).
      eapply Qle_trans; [exact Hle | done].
  - apply Qgtb_le in H8. apply Qgtb_lt in H6. repeat split; try done.
    + intros Hlt. by apply Qlt_not_le in Hlt.
    + intros Hle. by apply Qlt_not_le in H6.
  - apply Qgtb_le in H8. apply Qgtb_le in H6. repeat split; try done.
    + intros Hlt. by apply Qlt_not_le in Hlt.
    + intros [Hlt _]. by apply Qlt_not_le in Hlt.
Qed.

Example risk_of_examples :
  HealthDiagnosis.risk_of (81 # 100) = "high" ∧ HealthDiagnosis.risk_of (8 # 10) = "medium"
  ∧ HealthDiagnosis.risk_of (61 # 100) = "medium" ∧ HealthDiagnosis.risk_of (6 # 10) = "low"
  ∧ HealthDiagnosis.risk_of (12 # 15) = "medium".
Proof. done. Qed.

Lemma map_ok_lookup {A B} (f : A → outcome B) (l : list A) (ys : list B) (i : nat) (y : B) :
  map_ok f l = Ok ys → ys !! i = Some y → ∃ x, l !! i = Some x ∧ f x = Ok y.
Proof.
  intros Hmap Hy. destruct (map_ok_inv _ _ _ Hmap) as [Hlen Hall].
  destruct (lookup_lt_is_Some_2 l i) as [x Hx].
  { rewrite <- Hlen. by eapply lookup_lt_Some. }
  destruct (Hall i x Hx) as (y' & Hy' & Hf). exists x. split; [done|]. congruence.
Qed.

Section diagnose.
Context `{!Libs}.
Import HealthDiagnosis.

Lemma diagnose_one_spec (enc : LabelEncoder) (pred : Z) (proba : list Q) (r : diagnosis) :
  diagnose_one enc (pred, proba) = Ok r →
  confidence r ∈ proba
  ∧ (∀ p, p ∈ proba → (p <= confidence r)%Q)
  ∧ risk_level r = risk_of (confidence r).
Proof.
  unfold diagnose_one.
  intros (name & _ & Hrest)%obind_ok.
  apply obind_ok in Hrest as (c & Hc & Hrest).
  apply obind_ok in Hrest as (top & _ & [= <-]). simpl.
  apply amax_spec in Hc as [Hin Hmax]. done.
Qed.

(** C10. In every result that [diagnose] produces, the confidence is an
    entry of the ensemble class-probability row of that patient that no
    entry of the row exceeds, and the risk level is "high" exactly when the
    confidence is above 0.8, "medium" exactly when it is above 0.6 but not
    above 0.8, and "low" exactly when it is not above 0.6. *)
Theorem diagnose_confidence_risk (w w' : world) (patient_data : patient_input)
    (out : diagnose_result) :
  diagnose patient_data w = (Ok out, w') →
  ∃ (X : Pd.DataFrame) (probabilities : Np.matrix),
    prepare_features w' = (Ok X, w')
    ∧ predict_proba_ensemble X w' = (Ok (Np.Arr probabilities), w')
    ∧ ∀ i r, results_of out !! i = Some r →
        ∃ proba, probabilities !! i = Some proba
          ∧ confidence r ∈ proba
          ∧ (∀ p, p ∈ proba → (p <= confidence r)%Q)
          ∧ (risk_level r = "high" ↔ (8 # 10 < confidence r)%Q)
          ∧ (risk_level r = "medium"
             ↔ (6 # 10 < confidence r)%Q ∧ (confidence r <= 8 # 10)%Q)
          ∧ (risk_level r = "low" ↔ (confidence r <= 6 # 10)%Q).
Proof.
  unfold diagnose. intros Hrun.
  apply bind_ok in Hrun as ([] & w1 & _ & Hrun).
  apply bind_ok in Hrun as (X & w2 & HX & Hrun).
  apply bind_ok in Hrun as (predictions & w3 & Hpred & Hrun).
  apply bind_ok in Hrun as (probabilities & w4 & Hproba & Hrun).
  pose proof (readonly_run _ _ _ _ prepare_features_readonly HX) as ->.
  pose proof (readonly_run _ _ _ _ (predict_ensemble_readonly X) Hpred) as ->.
  pose proof (readonly_run _ _ _ _ (predict_proba_ensemble_readonly X) Hproba) as ->.
  destruct probabilities as [|probabilities]; [discriminate|].
  rewrite run_get_bind in Hrun.
  apply bind_ok in Hrun as (results & w5 & [Hres ->]%lift_ok & Hrun).
  assert (Hout : results_of out = results ∧ w' = w1).
  { destruct results as [|r [|r2 rest]]; by injection Hrun as <- <-. }
  destruct Hout as [Hout ->]. exists X, probabilities.
  split; [done|]. split; [done|].
  intros i r Hr. rewrite Hout in Hr.
  destruct (map_ok_lookup _ _ _ _ _ Hres Hr) as ([pred proba] & Hzip & Hone).
  exists proba. split.
  - apply lookup_zip_with_Some in Hzip as (x & y & [= -> ->] & _ & Hy). done.
  - apply diagnose_one_spec in Hone as (Hin & Hmax & ->).
    destruct (risk_of_spec (confidence r)) as (Hh & Hm & Hl). done.
Qed.

End diagnose.

(** ** The Lambda handlers *)

(** A [try] whose handler returns a value never raises: it returns what the
    body returns, or what the handler makes of the body's exception. *)
Lemma try_except_returns {S A} (body : M S A) (h : exn → A) (s : S) :
  ∃ a s', try_except body (λ e, ret (h e)) s = (Ok a, s')
          ∧ (body s = (Ok a, s') ∨ ∃ e, body s = (Raise e, s') ∧ a = h e).
Proof.
  unfold try_except. destruct (body s) as [[a|e] s'] eqn:Hb.
  - exists a, s'. split; [done | by left].
  - exists (h e), s'. split; [done | right; eauto].
Qed.

Section handlers.
Context `{!Libs, !DemandForecasting.Keras, !Host}.

Lemma health_handler_try_ok (event : json) (w w' : HealthDiagnosis.world) (r : response) :
  HealthDiagnosis.handler_try event w = (Ok r, w') →
  statusCode r = 200%Z ∧ ∃ fields, body r = json_dumps (JObj fields).
Proof.
  unfold HealthDiagnosis.handler_try. intros Hrun.
  apply bind_ok in Hrun as (? & ? & _ & Hrun).
  apply bind_ok in Hrun as (? & ? & _ & Hrun).
  apply bind_ok in Hrun as (? & ? & _ & Hrun).
  apply bind_ok in Hrun as (? & ? & _ & Hrun).
  injection Hrun as <- <-. simpl. eauto.
Qed.

Lemma demand_handler_try_ok (event : json) (w w' : DemandForecasting.world) (r : response) :
  DemandForecasting.handler_try event w = (Ok r, w') →
  statusCode r = 200%Z ∧ ∃ fields, body r = json_dumps (JObj fields).
Proof.
  unfold DemandForecasting.handler_try. intros Hrun.
  do 9 (apply bind_ok in Hrun as (? & ? & _ & Hrun)).
  injection Hrun as <- <-. simpl. eauto.
Qed.

(** C3. For every request event, each [lambda_handler] returns a response
    and never raises. When a step of its [try] block raises, the response
    has status code 500 and its body is the JSON object holding the
    exception's message and a timestamp; otherwise the response is the one
    the [try] block built, with status code 200 and a JSON object as
    body. *)
Theorem lambda_handlers_catch_all (event : json)
    (wh : HealthDiagnosis.world) (wd : DemandForecasting.world) :
  (∃ resp wh', HealthDiagnosis.lambda_handler event wh = (Ok resp, wh')
     ∧ ((HealthDiagnosis.handler_try event wh = (Ok resp, wh')
         ∧ statusCode resp = 200%Z
         ∧ ∃ fields, body resp = json_dumps (JObj fields))
        ∨ (∃ e, HealthDiagnosis.handler_try event wh = (Raise e, wh')
           ∧ statusCode resp = 500%Z
           ∧ body resp = json_dumps (JObj [ ("error", JStr (exn_msg e));
                                             ("timestamp", JStr now_isoformat) ]))))
  ∧ (∃ resp wd', DemandForecasting.lambda_handler event wd = (Ok resp, wd')
     ∧ ((DemandForecasting.handler_try event wd = (Ok resp, wd')
         ∧ statusCode resp = 200%Z
         ∧ ∃ fields, body resp = json_dumps (JObj fields))
        ∨ (∃ e, DemandForecasting.handler_try event wd = (Raise e, wd')
           ∧ statusCode resp = 500%Z
           ∧ body resp = json_dumps (JObj [ ("error", JStr (exn_msg e));
                                             ("timestamp", JStr now_isoformat) ])))).
Proof.
  split.
  - unfold HealthDiagnosis.lambda_handler, HealthDiagnosis.handler_except.
    destruct (try_except_returns (HealthDiagnosis.handler_try event)
                (λ e, {| statusCode := 500;
                         body := json_dumps (JObj [ ("error", JStr (exn_msg e));
                                                    ("timestamp", JStr now_isoformat) ]) |})
                wh) as (resp & wh' & Hrun & [Hok|(e & Hraise & ->)]).
    + exists resp, wh'. split; [done|]. left. split; [done|].
      by apply health_handler_try_ok in Hok.
    + eexists _, wh'. split; [exact Hrun|]. right. exists e. done.
  - unfold DemandForecasting.lambda_handler, DemandForecasting.handler_except.
    destruct (try_except_returns (DemandForecasting.handler_try event)
                (λ e, {| statusCode := 500;
                         body := json_dumps (JObj [ ("error", JStr (exn_msg e));
                                                    ("timestamp", JStr now_isoformat) ]) |})
                wd) as (resp & wd' & Hrun & [Hok|(e & Hraise & ->)]).
    + exists resp, wd'. split; [done|]. left. split; [done|].
      by apply demand_handler_try_ok in Hok.
    + eexists _, wd'. split; [exact Hrun|]. right. exists e. done.
Qed.

(** *** The health handler works on a model that was never fitted *)

(** After the constructor, [self] is the untrained model, and the first
    steps of [diagnose] do not touch it. *)
Lemma predict_ensemble_new_model (X : Pd.DataFrame) (w : HealthDiagnosis.world) :
  HealthDiagnosis.self w = HealthDiagnosis.new_model →
  HealthDiagnosis.predict_ensemble X w
  = (Raise (HealthDiagnosis.not_fitted "StandardScaler"), w).
Proof.
  intros Hself. unfold HealthDiagnosis.predict_ensemble.
  rewrite run_get_bind, Hself. reflexivity.
Qed.

Lemma diagnose_new_model (patient_data : HealthDiagnosis.patient_input)
    (w w' : HealthDiagnosis.world) (out : HealthDiagnosis.diagnose_result) :
  HealthDiagnosis.self w = HealthDiagnosis.new_model →
  HealthDiagnosis.diagnose patient_data w ≠ (Ok out, w').
Proof.
  intros Hself Hrun. unfold HealthDiagnosis.diagnose in Hrun.
  apply bind_ok in Hrun as ([] & w1 & Hsetup & Hrun).
  apply bind_ok in Hrun as (X & w2 & HX & Hrun).
  apply bind_ok in Hrun as (predictions & w3 & Hpred & _).
  pose proof (readonly_run _ _ _ _ prepare_features_readonly HX) as ->.
  assert (Hself1 : HealthDiagnosis.self w1 = HealthDiagnosis.new_model).
  { destruct patient_data as [j|]; [destruct j|]; try discriminate;
      by injection Hsetup as <-. }
  rewrite (predict_ensemble_new_model X w1 Hself1) in Hpred. discriminate.
Qed.

(** C4 (what the code does). For every request event, the health-diagnosis
    [lambda_handler] answers with status code 500: the model it builds is
    never fitted, so no diagnosis is ever produced. *)
Theorem health_lambda_handler_always_500 (event : json) (w : HealthDiagnosis.world) :
  ∃ resp w', HealthDiagnosis.lambda_handler event w = (Ok resp, w')
             ∧ statusCode resp = 500%Z.
Proof.
  unfold HealthDiagnosis.lambda_handler, try_except.
  destruct (HealthDiagnosis.handler_try event w) as [[r|e] w'] eqn:Hrun.
  - exfalso. unfold HealthDiagnosis.handler_try in Hrun.
    apply bind_ok in Hrun as (body_text & w1 & _ & Hrun).
    apply bind_ok in Hrun as (input_data & w2 & _ & Hrun).
    apply bind_ok in Hrun as ([] & w3 & Hinit & Hrun).
    apply bind_ok in Hrun as (out & w4 & Hdiag & _).
    apply diagnose_new_model in Hdiag; [done|].
    unfold HealthDiagnosis.init in Hinit.
    apply bind_ok in Hinit as (? & ? & _ & Hinit). by injection Hinit as <-.
  - eexists _, w'. split; [reflexivity | done].
Qed.

End handlers.

(** ** Guards on an untrained model *)

Section guards.
Context `{!Libs, !DemandForecasting.Keras}.

(** C8 (as amended). A model whose [model] field is [None], as it is from
    construction until [build_model], [train] or [load_model] sets it, makes
    [predict] and [save_model] raise [ValueError] with the world untouched:
    no prediction, no local write, no upload, no change to the table. A
    health model whose [models] collection is empty makes [predict_ensemble]
    and [predict_proba_ensemble] raise [ValueError] likewise. *)
Theorem untrained_model_guards (wd : DemandForecasting.world) (wh : HealthDiagnosis.world)
    (days_ahead : json) (s3_bucket model_key : string) (X : Pd.DataFrame) :
  DemandForecasting.model (DemandForecasting.self wd) = None →
  HealthDiagnosis.models (HealthDiagnosis.self wh) = [] →
  (∀ sequence_length features,
     DemandForecasting.model (DemandForecasting.new_model sequence_length features) = None)
  ∧ DemandForecasting.predict days_ahead wd
    = (Raise (Exn ValueError "Model not trained. Call train() first."), wd)
  ∧ DemandForecasting.save_model s3_bucket model_key wd
    = (Raise (Exn ValueError "No model to save"), wd)
  ∧ HealthDiagnosis.predict_ensemble X wh
    = (Raise (Exn ValueError "Models not trained"), wh)
  ∧ HealthDiagnosis.predict_proba_ensemble X wh
    = (Raise (Exn ValueError "Models not trained"), wh).
Proof.
  intros Hd Hh. split; [done|].
  unfold DemandForecasting.predict, DemandForecasting.save_model,
    HealthDiagnosis.predict_ensemble, HealthDiagnosis.predict_proba_ensemble.
  rewrite !run_get_bind, Hd, Hh. done.
Qed.

End guards.

(** The witness: a freshly constructed forecaster and a health model whose
    collection of classifiers was emptied. *)
Lemma untrained_model_guards_witness :
  DemandForecasting.model
    (DemandForecasting.self (Ref.demand_world (DemandForecasting.new_model 30 5) 3)) = None
  ∧ DemandForecasting.save_model "bharat-ai-hub-models" "demand-forecasting/model.h5"
      (Ref.demand_world (DemandForecasting.new_model 30 5) 3)
    = (Raise (Exn ValueError "No model to save"),
       Ref.demand_world (DemandForecasting.new_model 30 5) 3).
Proof.
  split; [reflexivity|].
  apply (@untrained_model_guards Ref.libs
           (Ref.demand_world (DemandForecasting.new_model 30 5) 3)
           {| HealthDiagnosis.self :=
                {| HealthDiagnosis.models := [];
                   HealthDiagnosis.scaler := HealthDiagnosis.scaler Ref.fitted_model;
                   HealthDiagnosis.label_encoder := HealthDiagnosis.label_encoder Ref.fitted_model;
                   HealthDiagnosis.feature_selector :=
                     HealthDiagnosis.feature_selector Ref.fitted_model;
                   HealthDiagnosis.feature_names := None;
                   HealthDiagnosis.diagnosis_classes := None |};
              HealthDiagnosis.frame := Ref.empty_frame |}
           (JInt 7) "bharat-ai-hub-models" "demand-forecasting/model.h5" Ref.empty_frame);
    reflexivity.
Defined.

(** C8 (as stated) fails: on a freshly constructed forecaster, a call of
    [build_model] alone sets the [model] field; neither [train] nor
    [load_model] has run, yet [save_model] returns normally after a local
    write and an upload. *)
Lemma untrained_guard_counterexample :
  let w0 := Ref.demand_world (DemandForecasting.new_model 30 5) 3 in
  let w1 := (DemandForecasting.build_model (H0 := Ref.keras) w0).2 in
  let saved := DemandForecasting.save_model
                 "bharat-ai-hub-models" "demand-forecasting/model.h5" w1 in
  DemandForecasting.model (DemandForecasting.self w0) = None
  ∧ saved.1 = Ok tt
  ∧ DemandForecasting.log saved.2
    = [ DemandForecasting.Saved DemandForecasting.local_path;
        DemandForecasting.Uploaded DemandForecasting.local_path
          "bharat-ai-hub-models" "demand-forecasting/model.h5" ].
Proof. vm_compute. done. Qed.

(** ** What prepare_data and prepare_features change *)

Lemma preserves_bind {S A B} (R : S → S → Prop) (m : M S A) (k : A → M S B) :
  Transitive R → preserves R m → (∀ a, preserves R (k a)) → preserves R (bind m k).
Proof.
  intros HT Hm Hk s. unfold bind. specialize (Hm s).
  destruct (m s) as [[a|e] s1]; simpl in *; [|done].
  etrans; [exact Hm | apply Hk].
Qed.

Lemma preserves_bind_at {S A B} (R : S → S → Prop) (m : M S A) (k : A → M S B) (s : S) :
  Transitive R → R s (m s).2 → (∀ a, preserves R (k a)) → R s (bind m k s).2.
Proof.
  intros HT Hm Hk. unfold bind.
  destruct (m s) as [[a|e] s1]; simpl in *; [|done].
  etrans; [exact Hm | apply Hk].
Qed.

Lemma preserves_readonly {S A} (R : S → S → Prop) (m : M S A) :
  Reflexive R → readonly m → preserves R m.
Proof. intros HR Hm s. by rewrite Hm. Qed.

Lemma preserves_modify {S} (R : S → S → Prop) (f : S → S) :
  (∀ s, R s (f s)) → preserves R (modify f).
Proof. intros Hf s. apply Hf. Qed.

Section demand_frame.
Context `{!Libs}.
Import DemandForecasting.

#[local] Instance prepare_data_frame_refl : Reflexive prepare_data_frame.
Proof. intros w. unfold prepare_data_frame. naive_solver. Qed.

#[local] Instance prepare_data_frame_trans : Transitive prepare_data_frame.
Proof.
  intros w1 w2 w3 H12 H23. unfold prepare_data_frame in *.
  destruct H12 as (?&?&?&?&?&?&?&?&H12k&?), H23 as (?&?&?&?&?&?&?&?&H23k&?).
  repeat split; try congruence; try naive_solver.
  intros k Hk. rewrite H23k, H12k; done.
Qed.

Lemma wf_insert (df : Pd.DataFrame) (key : string) (col : list json) :
  Pd.wf df → length col = Pd.nrows df →
  Pd.wf {| Pd.nrows := Pd.nrows df; Pd.columns := <[key := col]> (Pd.columns df) |}.
Proof.
  intros Hwf Hlen k c. simpl. rewrite lookup_insert.
  case_decide; [intros [= <-]; done | apply Hwf].
Qed.

Lemma assign_frame (key : string) (col : list json) :
  key ∈ derived_columns → key ≠ "is_holiday" →
  preserves prepare_data_frame (assign key col).
Proof.
  intros Hkey Hhol w. unfold assign.
  rewrite run_get_bind, run_lift_bind. unfold Pd.setitem.
  destruct (Nat.eqb_spec (length col) (Pd.nrows (frame w))) as [Hlen|_]; [|reflexivity].
  simpl. unfold prepare_data_frame. simpl. repeat split; try done.
  - intros Hwf. by apply wf_insert.
  - intros k Hk. apply lookup_insert_ne. intros ->. done.
  - intros c Hc. by rewrite lookup_insert_ne.
Qed.

Lemma assign_holiday_frame (w : world) :
  prepare_data_frame w
    ((match Pd.columns (frame w) !! "is_holiday" with
      | Some holidays => assign "is_holiday" holidays
      | None => modify (set_frame (Pd.setitem_scalar (frame w) "is_holiday" (JInt 0)))
      end) w).2.
Proof.
  destruct (Pd.columns (frame w) !! "is_holiday") as [holidays|] eqn:Hhol.
  - unfold assign. rewrite run_get_bind, run_lift_bind. unfold Pd.setitem.
    destruct (Nat.eqb_spec (length holidays) (Pd.nrows (frame w))) as [Hlen|_];
      [|reflexivity].
    simpl. unfold prepare_data_frame. simpl. repeat split; try done.
    + intros Hwf. by apply wf_insert.
    + intros k Hk. apply lookup_insert_ne. intros <-. apply Hk. set_solver.
    + intros c Hc. rewrite lookup_insert_eq. congruence.
  - simpl. unfold prepare_data_frame. simpl. repeat split; try done.
    + intros Hwf. apply wf_insert; [done|]. by rewrite length_replicate.
    + intros k Hk. apply lookup_insert_ne. intros <-. apply Hk. set_solver.
    + intros c Hc. congruence.
Qed.

Lemma column_of_readonly (key : string) : readonly (column_of key).
Proof. unfold column_of. repeat readonly_step. Qed.

Ltac frame_step :=
  lazymatch goal with
  | |- preserves _ (assign _ _) => apply assign_frame; [set_solver | done]
  | |- preserves _ (column_of _) =>
      apply preserves_readonly; [apply _ | apply column_of_readonly]
  | |- preserves _ (lift _) => apply preserves_readonly; [apply _ | apply readonly_lift]
  | |- preserves _ get => apply preserves_readonly; [apply _ | apply readonly_get]
  | |- preserves _ (ret _) => apply preserves_readonly; [apply _ | apply readonly_ret]
  | |- preserves _ (bind _ _) => apply preserves_bind; [apply _ | | intros ?]
  end.

(** Whatever its outcome, [scale_features] changes nothing but the derived
    columns of the table and the scaler. *)
Lemma scale_features_frame : preserves prepare_data_frame scale_features.
Proof.
  unfold scale_features.
  do 8 (frame_step; [frame_step|]).
  intros w. rewrite run_get_bind.
  apply preserves_bind_at; [apply _ | apply assign_holiday_frame | intros ?].
  do 3 (frame_step; [frame_step|]).
  frame_step; [|frame_step].
  apply preserves_modify. intros w'. unfold prepare_data_frame. naive_solver.
Qed.

Lemma prepare_data_frame_only : preserves prepare_data_frame prepare_data.
Proof.
  unfold prepare_data.
  apply preserves_bind; [apply _ | apply scale_features_frame |intros ?].
  repeat frame_step.
Qed.

End demand_frame.

Lemma agree_bind_at {S A B} (P : S → S → Prop) (m1 m2 : M S A) (k1 k2 : A → M S B)
    (s1 s2 : S) :
  agree_at P m1 m2 s1 s2 → (∀ a, agree P (k1 a) (k2 a)) →
  agree_at P (bind m1 k1) (bind m2 k2) s1 s2.
Proof.
  unfold agree_at, bind. intros [Ho Hs] Hk.
  destruct (m1 s1) as [[a1|e1] t1], (m2 s2) as [[a2|e2] t2]; simpl in *; simplify_eq.
  - by apply Hk.
  - done.
Qed.

Lemma agree_bind {S A B} (P : S → S → Prop) (m1 m2 : M S A) (k1 k2 : A → M S B) :
  agree P m1 m2 → (∀ a, agree P (k1 a) (k2 a)) → agree P (bind m1 k1) (bind m2 k2).
Proof. intros Hm Hk s1 s2 HP. apply agree_bind_at; [by apply Hm | done]. Qed.

Lemma agree_lift {S A} (P : S → S → Prop) (o : outcome A) : agree P (lift o) (lift o).
Proof. intros s1 s2 HP. done. Qed.

Section demand_determinism.
Context `{!Libs}.
Import DemandForecasting.

Lemma agree_column_of (key : string) : agree same_input (column_of key) (column_of key).
Proof.
  intros s1 s2 [Hf Hs]. unfold agree_at, column_of. rewrite !run_get_bind.
  unfold lift. simpl. by rewrite Hf.
Qed.

Lemma agree_assign (key : string) (col : list json) :
  agree same_input (assign key col) (assign key col).
Proof.
  intros s1 s2 [Hf Hs]. unfold agree_at, assign.
  rewrite !run_get_bind, !run_lift_bind, Hf.
  destruct (Pd.setitem (frame s2) key col); simpl; done.
Qed.

Ltac agree_step :=
  lazymatch goal with
  | |- agree _ (assign _ _) _ => apply agree_assign
  | |- agree _ (column_of _) _ => apply agree_column_of
  | |- agree _ (lift _) _ => apply agree_lift
  | |- agree _ (bind _ _) _ => apply agree_bind; [|intros ?]
  end.

(** The outcome of [prepare_data] and the table it leaves depend on nothing
    but the table it is given and [sequence_length]: in particular not on
    an earlier fit of the scaler. *)
Lemma prepare_data_agree : agree same_input prepare_data prepare_data.
Proof.
  unfold prepare_data, scale_features. agree_step.
  - do 8 (agree_step; [agree_step|]).
    intros s1 s2 [Hf Hs]. unfold agree_at. rewrite !run_get_bind, Hf.
    apply agree_bind_at.
    { destruct (Pd.columns (frame s2) !! "is_holiday") as [holidays|].
      - by apply agree_assign.
      - done. }
    intros _ t1 t2 [Hft Hst]. unfold agree_at. rewrite !run_get_bind, Hft.
    apply agree_bind_at; [done|]. intros feature_data.
    agree_step; [agree_step|]. agree_step.
    + intros u1 u2 [Hfu Hsu]. done.
    + intros u1 u2 Hu. done.
  - intros s1 s2 [Hf Hs]. unfold agree_at. rewrite !run_get_bind, Hs. done.
Qed.

End demand_determinism.

Section preparation.
Context `{!Libs}.

(** C5 (as amended). [prepare_features] leaves the model and the table as
    they were, and its outcome depends on the table alone. [prepare_data]
    changes nothing but the scaler of the model and the derived columns of
    the table (an existing [is_holiday] column keeps its cells; the other
    columns, the number of rows, the rest of the model and the outside
    world are untouched); its outcome and the table it leaves depend on
    the table and [sequence_length] alone, so equal inputs give equal
    outputs. *)
Theorem feature_preparation_effects (wh wh' : HealthDiagnosis.world)
    (w1 w2 : DemandForecasting.world) :
  HealthDiagnosis.frame wh = HealthDiagnosis.frame wh' →
  DemandForecasting.same_input w1 w2 →
  (HealthDiagnosis.prepare_features wh).2 = wh
  ∧ (HealthDiagnosis.prepare_features wh).1 = (HealthDiagnosis.prepare_features wh').1
  ∧ DemandForecasting.prepare_data_frame w1 (DemandForecasting.prepare_data w1).2
  ∧ (DemandForecasting.prepare_data w1).1 = (DemandForecasting.prepare_data w2).1
  ∧ DemandForecasting.frame (DemandForecasting.prepare_data w1).2
    = DemandForecasting.frame (DemandForecasting.prepare_data w2).2.
Proof.
  intros Hh Hd. split; [apply prepare_features_readonly|]. split.
  { unfold HealthDiagnosis.prepare_features. rewrite !run_get_bind, !run_lift_bind, Hh.
    by destruct (map_ok _ _). }
  split; [apply prepare_data_frame_only|].
  destruct (prepare_data_agree w1 w2 Hd) as [Ho [Hf _]]. done.
Qed.

End preparation.

(** The witness: the reference health world, and two forecasters with
    different window lengths' worth of history in their scalers but the same
    table and [sequence_length]. *)
Lemma feature_preparation_effects_witness :
  (HealthDiagnosis.prepare_features (H := Ref.libs) Ref.health_world).2 = Ref.health_world
  ∧ (DemandForecasting.prepare_data (H := Ref.libs)
       (Ref.demand_world (DemandForecasting.new_model 2 5) 4)).1
    = (DemandForecasting.prepare_data (H := Ref.libs)
         (Ref.demand_world
            (DemandForecasting.set_scaler
               {| DemandForecasting.fitted := Some ([1 # 2], [0%Q]) |}
               (DemandForecasting.new_model 2 3)) 4)).1.
Proof.
  pose proof (@feature_preparation_effects Ref.libs Ref.health_world Ref.health_world
                (Ref.demand_world (DemandForecasting.new_model 2 5) 4)
                (Ref.demand_world
                   (DemandForecasting.set_scaler
                      {| DemandForecasting.fitted := Some ([1 # 2], [0%Q]) |}
                      (DemandForecasting.new_model 2 3)) 4)
                eq_refl (conj eq_refl eq_refl)) as (H1 & _ & _ & H2 & _).
  exact (conj H1 H2).
Defined.

(** C5 (as stated) fails for [prepare_data]: on a four-day sales table and
    a new forecaster it returns, having fitted the scaler of the model and
    added columns to the table it was given. *)
Lemma prepare_data_mutates_counterexample :
  let w0 := Ref.demand_world (DemandForecasting.new_model 2 5) 4 in
  let run := DemandForecasting.prepare_data (H := Ref.libs) w0 in
  is_ok run.1 = true
  ∧ DemandForecasting.self run.2 ≠ DemandForecasting.self w0
  ∧ DemandForecasting.frame run.2 ≠ DemandForecasting.frame w0
  ∧ DemandForecasting.fitted (DemandForecasting.scaler (DemandForecasting.self w0)) = None
  ∧ DemandForecasting.fitted (DemandForecasting.scaler (DemandForecasting.self run.2))
    = Some ([1 # 30; 1; 1 # 3; 1; 1]%Q, [-100 # 30; -50; 0 # 3; -1; 0]%Q)
  ∧ Pd.columns (DemandForecasting.frame w0) !! "month" = None
  ∧ Pd.columns (DemandForecasting.frame run.2) !! "month"
    = Some [JInt 1; JInt 1; JInt 1; JInt 1].
Proof.
  cbv zeta.
  assert (Hfit : DemandForecasting.fitted (DemandForecasting.scaler (DemandForecasting.self
            (DemandForecasting.prepare_data (H := Ref.libs)
               (Ref.demand_world (DemandForecasting.new_model 2 5) 4)).2))
          = Some ([1 # 30; 1; 1 # 3; 1; 1]%Q, [-100 # 30; -50; 0 # 3; -1; 0]%Q))
    by (vm_compute; reflexivity).
  assert (Hcol : Pd.columns (DemandForecasting.frame
            (DemandForecasting.prepare_data (H := Ref.libs)
               (Ref.demand_world (DemandForecasting.new_model 2 5) 4)).2) !! "month"
          = Some [JInt 1; JInt 1; JInt 1; JInt 1])
    by (vm_compute; reflexivity).
  split; [by vm_compute|]. split.
  { intros Heq. rewrite Heq in Hfit. discriminate Hfit. }
  split.
  { intros Heq. rewrite Heq in Hcol. vm_compute in Hcol. discriminate Hcol. }
  split; [reflexivity|]. split; [exact Hfit|].
  split; [by vm_compute | exact Hcol].
Qed.

(** ** Witnesses on the reference health model *)

(** The features of the reference patient, as [diagnose] prepares them. *)
Lemma predict_ensemble_majority_witness :
  ∃ ensemble : list Z,
    HealthDiagnosis.predict_ensemble (Pd.from_records [dict_of [("age", JInt 42)]])
      Ref.health_world = (Ok ensemble, Ref.health_world)
    ∧ ensemble !! 0 = Some 1%Z.
Proof.
  destruct (predict_ensemble_majority Ref.health_world
              (Pd.from_records [dict_of [("age", JInt 42)]]) [[]] [[]]
              "random_forest" "gradient_boosting" "xgboost"
              (Ref.constant_classifier 1 [1 # 10; 9 # 10])
              (Ref.constant_classifier 1 [2 # 10; 8 # 10])
              (Ref.constant_classifier 0 [6 # 10; 4 # 10])
              [1%Z] [1%Z] [0%Z]
              eq_refl eq_refl eq_refl eq_refl eq_refl eq_refl eq_refl eq_refl)
    as (ensemble & Hrun & Hlen & Hvotes).
  exists ensemble. split; [exact Hrun|].
  destruct (Hvotes 0 1%Z 1%Z 0%Z eq_refl eq_refl eq_refl) as (v & Hv & _ & _ & Htwo).
  rewrite Hv. f_equal. apply Htwo. vm_compute. lia.
Defined.

Lemma predict_proba_ensemble_mean_witness :
  ∃ ensemble_proba : Np.matrix,
    HealthDiagnosis.predict_proba_ensemble (Pd.from_records [dict_of [("age", JInt 42)]])
      Ref.health_world = (Ok (Np.Arr ensemble_proba), Ref.health_world)
    ∧ ∃ e, Np.entry ensemble_proba 0 1 = Some e ∧ (e == 7 # 10)%Q.
Proof.
  destruct (predict_proba_ensemble_mean Ref.health_world
              (Pd.from_records [dict_of [("age", JInt 42)]]) [[]] [[]]
              "random_forest" "gradient_boosting" "xgboost"
              (Ref.constant_classifier 1 [1 # 10; 9 # 10])
              (Ref.constant_classifier 1 [2 # 10; 8 # 10])
              (Ref.constant_classifier 0 [6 # 10; 4 # 10])
              (λ X, Ok (map (λ _, [1 # 10; 9 # 10]) X))
              (λ X, Ok (map (λ _, [2 # 10; 8 # 10]) X))
              (λ X, Ok (map (λ _, [6 # 10; 4 # 10]) X))
              [[1 # 10; 9 # 10]] [[2 # 10; 8 # 10]] [[6 # 10; 4 # 10]]
              eq_refl eq_refl eq_refl eq_refl eq_refl eq_refl eq_refl eq_refl eq_refl
              eq_refl eq_refl eq_refl eq_refl eq_refl)
    as (E & Hrun & Hlen & Hent).
  exists E. split; [exact Hrun|].
  destruct (Hent 0 1 (9 # 10) (8 # 10) (4 # 10) eq_refl eq_refl eq_refl) as (e & He & Hq).
  exists e. split; [exact He|]. rewrite Hq. reflexivity.
Defined.

Lemma diagnose_confidence_risk_witness :
  ∃ (out : HealthDiagnosis.diagnose_result) (w' : HealthDiagnosis.world),
    HealthDiagnosis.diagnose (H := Ref.libs) (HealthDiagnosis.FromJson Ref.patient)
      Ref.health_world = (Ok out, w')
    ∧ ∀ i r, HealthDiagnosis.results_of out !! i = Some r →
        (HealthDiagnosis.risk_level r = "high"
         ↔ (8 # 10 < HealthDiagnosis.confidence r)%Q).
Proof.
  destruct (HealthDiagnosis.diagnose (H := Ref.libs) (HealthDiagnosis.FromJson Ref.patient)
              Ref.health_world) as [[out|e] w'] eqn:Hrun;
    [|vm_compute in Hrun; discriminate Hrun].
  exists out, w'. split; [reflexivity|]. intros i r Hr.
  destruct (@diagnose_confidence_risk Ref.libs Ref.health_world w'
              (HealthDiagnosis.FromJson Ref.patient) out Hrun)
    as (X & probabilities & _ & _ & Hres).
  destruct (Hres i r Hr) as (proba & _ & _ & _ & Hhigh & _). exact Hhigh.
Defined.

(** * Further properties of the code *)

(** ** prepare_data: the shape of the scaled rows and of the windows *)

Lemma preserves_run {S A} (R : S → S → Prop) (m : M S A) (s s' : S) (o : outcome A) :
  preserves R m → m s = (o, s') → R s s'.
Proof. intros Hm Hrun. specialize (Hm s). by rewrite Hrun in Hm. Qed.

Lemma map_ok_length {A B} (f : A → outcome B) (l : list A) (ys : list B) :
  map_ok f l = Ok ys → length ys = length l.
Proof. intros H. by destruct (map_ok_inv _ _ _ H). Qed.

Lemma map_ok_elem {A B} (f : A → outcome B) (l : list A) (ys : list B) (y : B) :
  map_ok f l = Ok ys → y ∈ ys → ∃ x, x ∈ l ∧ f x = Ok y.
Proof.
  intros Hmap [i Hi]%list_elem_of_lookup.
  destruct (map_ok_lookup _ _ _ _ _ Hmap Hi) as (x & Hx & Hf).
  exists x. split; [by eapply list_elem_of_lookup_2 | done].
Qed.

Lemma omap_lookup_length {A} (cols : list (list A)) (i : nat) :
  (∀ col, col ∈ cols → (i < length col)%nat) →
  length (omap (λ col : list A, col !! i) cols) = length cols.
Proof.
  induction cols as [|col cols IH]; intros Hall; simpl; [done|].
  destruct (lookup_lt_is_Some_2 col i) as [x ->]; [apply Hall; left|].
  simpl. f_equal. apply IH. intros c Hc. apply Hall. by right.
Qed.

(** On a well-formed table, [df[keys].values] has one row per table row and
    one cell per key in every row. *)
Lemma values_shape (df : Pd.DataFrame) (keys : list string) (fd : list (list json)) :
  Pd.wf df → Pd.values df keys = Ok fd →
  length fd = Pd.nrows df ∧ ∀ row, row ∈ fd → length row = length keys.
Proof.
  intros Hwf. unfold Pd.values. intros (cols & Hcols & [= <-])%obind_ok.
  split; [by rewrite length_map, length_seq|].
  intros row (i & -> & Hi)%list_elem_of_fmap. apply elem_of_seq in Hi.
  rewrite omap_lookup_length; [by eapply map_ok_length|].
  intros col Hcol. destruct (map_ok_elem _ _ _ _ Hcols Hcol) as (k & _ & Hk).
  unfold Pd.getitem in Hk. destruct (Pd.columns df !! k) as [c|] eqn:Hc; [|done].
  injection Hk as <-. rewrite (Hwf _ _ Hc). lia.
Qed.

Lemma fold_zip_with_length (f : Q → Q → Q) (rest : list (list Q)) (r : list Q) (c : nat) :
  length r = c → (∀ row, row ∈ rest → length row = c) →
  length (fold_left (zip_with f) rest r) = c.
Proof.
  revert r. induction rest as [|x rest IH]; intros r Hr Hall; simpl; [done|].
  apply IH.
  - rewrite length_zip_with, Hr, (Hall x) by left. lia.
  - intros row Hrow. apply Hall. by right.
Qed.

Lemma map_rows_length {A} (F : A → list Q) (X : list A) (c : nat) :
  (∀ x, x ∈ X → length (F x) = c) → ∀ row, row ∈ map F X → length row = c.
Proof.
  induction X as [|x X IH]; intros HF row Hrow; simpl in Hrow.
  - by apply elem_of_nil in Hrow.
  - apply elem_of_cons in Hrow as [->|Hrow]; [apply HF; left|].
    apply IH; [|done]. intros y Hy. apply HF. by right.
Qed.

Section scale_features_shape.
Context `{!Libs}.
Import DemandForecasting.

(** The scaler fitted on rows of [c] cells each holds [c] scales and [c]
    offsets, and the scaled rows keep the shape of the data. *)
Lemma fit_transform_shape (fd : list (list json)) (sc : MinMaxScaler)
    (scaled : Np.matrix) (c : nat) :
  fit_transform fd = Ok (sc, scaled) →
  (∀ row, row ∈ fd → length row = c) →
  length scaled = length fd
  ∧ fd ≠ []
  ∧ (∀ row, row ∈ scaled → length row = c)
  ∧ ∃ scale_ min_, fitted sc = Some (scale_, min_)
                   ∧ length scale_ = c ∧ length min_ = c.
Proof.
  unfold fit_transform. intros (X & HX & Hfit)%obind_ok Hrows.
  assert (HXlen : length X = length fd) by (by eapply map_ok_length).
  assert (HXrows : ∀ row, row ∈ X → length row = c).
  { intros row Hrow. destruct (map_ok_elem _ _ _ _ HX Hrow) as (cells & Hcells & Hf).
    rewrite (map_ok_length _ _ _ Hf). by apply Hrows. }
  destruct X as [|r rest]; [done|]. injection Hfit as <- <-.
  assert (Hr : length r = c) by (apply HXrows; left).
  assert (Hrest : ∀ row, row ∈ rest → length row = c)
    by (intros row Hrow; apply HXrows; by right).
  pose proof (fold_zip_with_length Qmin2 rest r c Hr Hrest) as Hmin.
  pose proof (fold_zip_with_length Qmax2 rest r c Hr Hrest) as Hmax.
  assert (Hscale : length (map (λ d : Q, (1 / (if Qeq_bool d 0 then 1 else d))%Q)
                     (zip_with Qminus (fold_left (zip_with Qmax2) rest r)
                        (fold_left (zip_with Qmin2) rest r))) = c).
  { rewrite length_map, length_zip_with. lia. }
  assert (Hoff : length (zip_with (λ lo s : Q, (0 - lo * s)%Q)
                   (fold_left (zip_with Qmin2) rest r)
                   (map (λ d : Q, (1 / (if Qeq_bool d 0 then 1 else d))%Q)
                      (zip_with Qminus (fold_left (zip_with Qmax2) rest r)
                         (fold_left (zip_with Qmin2) rest r)))) = c).
  { rewrite length_zip_with. lia. }
  split; [rewrite <- HXlen; simpl; by rewrite length_map|]. split.
  { intros ->. done. }
  split.
  - intros row [->|Hrow]%elem_of_cons.
    + rewrite !length_zip_with. lia.
    + revert row Hrow. apply map_rows_length. intros x Hx.
      rewrite !length_zip_with, (Hrest x Hx). lia.
  - eexists _, _. split; [reflexivity|]. done.
Qed.

(** A run of [scale_features] that returns: the table it leaves differs
    from the one it got in the derived columns only, the scaled rows are
    the scaler's answer on the feature columns of that table, and the
    model differs in its scaler only. *)
Lemma scale_features_inv (w w' : world) (scaled : Np.matrix) :
  scale_features w = (Ok scaled, w') →
  ∃ w4 fd sc,
    prepare_data_frame w w4
    ∧ Pd.values (frame w4) feature_columns = Ok fd
    ∧ fit_transform fd = Ok (sc, scaled)
    ∧ w' = set_self (set_scaler sc (self w4)) w4.
Proof.
  unfold scale_features. intros Hrun.
  apply bind_ok in Hrun as (dates & w1 & H1 & Hrun).
  pose proof (readonly_run _ _ _ _ (column_of_readonly _) H1) as ->.
  apply bind_ok in Hrun as (stamps & w1 & [_ ->]%lift_ok & Hrun).
  apply bind_ok in Hrun as ([] & w2 & H2 & Hrun).
  assert (R2 : prepare_data_frame w w2).
  { eapply preserves_run; [|exact H2]. apply assign_frame; [set_solver | done]. }
  apply bind_ok in Hrun as (dates2 & w3 & H3 & Hrun).
  pose proof (readonly_run _ _ _ _ (column_of_readonly _) H3) as ->.
  apply bind_ok in Hrun as (stamps2 & w3 & [_ ->]%lift_ok & Hrun).
  apply bind_ok in Hrun as ([] & w3 & H4 & Hrun).
  assert (R3 : prepare_data_frame w2 w3).
  { eapply preserves_run; [|exact H4]. apply assign_frame; [set_solver | done]. }
  apply bind_ok in Hrun as (days & w5 & H5 & Hrun).
  pose proof (readonly_run _ _ _ _ (column_of_readonly _) H5) as ->.
  apply bind_ok in Hrun as ([] & w5 & H6 & Hrun).
  assert (R5 : prepare_data_frame w3 w5).
  { eapply preserves_run; [|exact H6]. apply assign_frame; [set_solver | done]. }
  rewrite run_get_bind in Hrun.
  apply bind_ok in Hrun as ([] & w6 & H7 & Hrun).
  assert (R6 : prepare_data_frame w5 w6).
  { pose proof (assign_holiday_frame w5) as Hh. by rewrite H7 in Hh. }
  rewrite run_get_bind in Hrun.
  apply bind_ok in Hrun as (fd & w7 & [Hfd ->]%lift_ok & Hrun).
  apply bind_ok in Hrun as ([sc scaled'] & w7 & [Hfit ->]%lift_ok & Hrun).
  injection Hrun as <- <-.
  exists w6, fd, sc. split; [|done].
  exact (prepare_data_frame_trans _ _ _ R2
           (prepare_data_frame_trans _ _ _ R3
              (prepare_data_frame_trans _ _ _ R5 R6))).
Qed.

(** The scaled rows of a well-formed table: one per table row, five
    entries each; the scaler that [scale_features] leaves in the model is
    fitted for five columns. *)
Lemma scale_features_shape (w w' : world) (scaled : Np.matrix) :
  Pd.wf (frame w) → scale_features w = (Ok scaled, w') →
  prepare_data_frame w w'
  ∧ length scaled = Pd.nrows (frame w)
  ∧ (1 ≤ Pd.nrows (frame w))%nat
  ∧ (∀ row, row ∈ scaled → length row = 5)
  ∧ ∃ scale_ min_, fitted (scaler (self w')) = Some (scale_, min_)
                   ∧ length scale_ = 5 ∧ length min_ = 5.
Proof.
  intros Hwf Hrun.
  pose proof (preserves_run _ _ _ _ _ scale_features_frame Hrun) as Hframe.
  apply scale_features_inv in Hrun as (w4 & fd & sc & R4 & Hfd & Hfit & ->).
  destruct R4 as (_ & _ & _ & _ & _ & _ & Hn & Hwf4 & _).
  destruct (values_shape _ _ _ (Hwf4 Hwf) Hfd) as [Hlen Hrows].
  destruct (fit_transform_shape _ _ _ 5 Hfit Hrows) as (Hl & Hne & Hsr & Hsc).
  split; [done|]. split; [congruence|]. split; [|done].
  rewrite <- Hn, <- Hlen. destruct fd; [done | simpl; lia].
Qed.

End scale_features_shape.

Section windows.
Context `{!Libs}.
Import DemandForecasting.

Lemma sequences_spec (s : nat) (scaled : Np.matrix) :
  (∀ row, row ∈ scaled → row ≠ []) →
  ∃ y, sequences s scaled
       = Ok (map (λ i, slice (i - s) i scaled) (seq s (length scaled - s)), y)
       ∧ length y = (length scaled - s)%nat
       ∧ ∀ i, (i < length scaled - s)%nat →
           ∃ v rest, scaled !! (s + i)%nat = Some (v :: rest) ∧ y !! i = Some v.
Proof.
  intros Hne. unfold sequences.
  destruct (map_ok_total
              (λ i, obind (Np.getitem scaled i) (λ row : list Q, Np.getitem row 0))
              (seq s (length scaled - s))) as [y Hy].
  { intros i Hi. apply elem_of_seq in Hi.
    destruct (lookup_lt_is_Some_2 scaled i) as [row Hrow]; [lia|].
    unfold Np.getitem. rewrite Hrow. simpl.
    destruct row as [|v rest]; [|by eexists].
    exfalso. eapply Hne; [|done]. by eapply list_elem_of_lookup_2. }
  rewrite Hy. simpl. exists y. split; [done|].
  destruct (map_ok_inv _ _ _ Hy) as [Hlen Hall]. rewrite length_seq in Hlen.
  split; [done|]. intros i Hi.
  destruct (Hall i (s + i)%nat) as (v & Hv & Hf); [by apply lookup_seq_lt|].
  unfold Np.getitem in Hf.
  destruct (scaled !! (s + i)%nat) as [[|v' rest]|]; simpl in Hf; try done.
  injection Hf as ->. by exists v, rest.
Qed.

Lemma slice_window {A} (s i : nat) (l : list A) :
  (i + s ≤ length l)%nat →
  length (slice (s + i - s) (s + i) l) = s
  ∧ ∀ j, (j < s)%nat → slice (s + i - s) (s + i) l !! j = l !! (i + j)%nat.
Proof.
  intros Hi. unfold slice.
  replace (s + i - s)%nat with i by lia. replace (s + i - i)%nat with s by lia.
  split.
  - rewrite length_take, length_drop. lia.
  - intros j Hj. by rewrite lookup_take_lt, lookup_drop.
Qed.


(** X1. On a well-formed table that the feature engineering and the scaler
    accept, [prepare_data] returns [X] and [y] with one entry for every row
    past the first [sequence_length]: [X[i]] holds the [sequence_length]
    scaled rows from position [i] on, and [y[i]] is the first entry of the
    scaled row at position [sequence_length + i]. *)
Theorem prepare_data_windows (w w1 : world) (scaled : Np.matrix) :
  Pd.wf (frame w) → scale_features w = (Ok scaled, w1) →
  length scaled = Pd.nrows (frame w)
  ∧ ∃ X y, prepare_data w = (Ok (X, y), w1)
      ∧ length X = (Pd.nrows (frame w) - sequence_length (self w))%nat
      ∧ length y = (Pd.nrows (frame w) - sequence_length (self w))%nat
      ∧ ∀ i, (i < Pd.nrows (frame w) - sequence_length (self w))%nat →
          (∃ window, X !! i = Some window
             ∧ length window = sequence_length (self w)
             ∧ ∀ j, (j < sequence_length (self w))%nat →
                 window !! j = scaled !! (i + j)%nat)
          ∧ (∃ v rest, scaled !! (sequence_length (self w) + i)%nat = Some (v :: rest)
               ∧ y !! i = Some v).
Proof.
  intros Hwf Hrun.
  destruct (scale_features_shape _ _ _ Hwf Hrun) as (Hframe & Hlen & _ & Hrows & _).
  destruct Hframe as (Hs & _).
  split; [done|].
  destruct (sequences_spec (sequence_length (self w)) scaled) as (y & Hseq & Hy & Hyi).
  { intros row Hrow ->. by apply Hrows in Hrow. }
  eexists _, y. split.
  { unfold prepare_data. rewrite run_bind, Hrun, run_get_bind, Hs.
    unfold lift. by rewrite Hseq. }
  rewrite length_map, length_seq, Hy, Hlen. split; [done|]. split; [done|].
  intros i Hi. split; [|apply Hyi; lia].
  eexists. split.
  { rewrite list_lookup_fmap, lookup_seq_lt by lia. reflexivity. }
  apply slice_window. lia.
Qed.

(** X2. If the table has no more rows than [sequence_length], and a network
    is set, [predict] raises [IndexError] at [X[-1]]: [prepare_data] has
    returned empty arrays. By then the scaler has been refitted and the
    table changed; no prediction was made. *)
Theorem predict_short_table (w w1 : world) (scaled : Np.matrix) (km : KerasModel)
    (days_ahead : json) :
  model (self w) = Some km →
  Pd.wf (frame w) → scale_features w = (Ok scaled, w1) →
  (Pd.nrows (frame w) ≤ sequence_length (self w))%nat →
  prepare_data w = (Ok ([], []), w1)
  ∧ predict days_ahead w
    = (Raise (Exn IndexError "index -1 is out of bounds for axis 0 with size 0"), w1)
  ∧ log w1 = log w.
Proof.
  intros Hm Hwf Hrun Hshort.
  destruct (scale_features_shape _ _ _ Hwf Hrun) as (Hframe & Hlen & _ & Hrows & _).
  destruct Hframe as (Hs & _ & _ & _ & _ & Hlog & _).
  assert (Hprep : prepare_data w = (Ok ([], []), w1)).
  { unfold prepare_data. rewrite run_bind, Hrun, run_get_bind, Hs.
    unfold lift, sequences.
    replace (length scaled - sequence_length (self w))%nat with 0%nat by lia.
    reflexivity. }
  split; [done|]. split; [|done].
  unfold predict. rewrite run_get_bind, Hm, run_bind, Hprep. reflexivity.
Qed.

End windows.

(** ** predict: the rolling window and the number of predictions *)

Lemma roll_set_last {A} (x : A) (rest : list A) (new : A) :
  Np.setitem_last (Np.roll_left (x :: rest)) new = Ok (rest ++ [new])%list.
Proof.
  unfold Np.roll_left, Np.setitem_last.
  assert (Hins : <[pred (length (rest ++ [x])%list) := new]> (rest ++ [x])%list
                 = (rest ++ [new])%list).
  { rewrite length_app. simpl.
    replace (pred (length rest + 1)) with (length rest + 0)%nat by lia.
    by rewrite insert_app_r. }
  rewrite Hins. by destruct rest.
Qed.




Section forecast.
Context `{!Libs}.
Import DemandForecasting.



(** X3. One turn of the loop of [predict]: the network is asked once; its
    first output becomes the next prediction; the window drops its oldest
    row and gains a copy of its newest row in which the first entry (the
    sales) is that prediction. *)
Theorem forecast_rolls_window (km : KerasModel) (n : nat) (oldest : list Q)
    (later : Np.matrix) (newest_first : Q) (newest_rest : list Q)
    (p : Q) (out_rest : list Q) (out_more : Np.matrix) (predictions : list Q) (w : world) :
  keras_predict km [oldest :: later] = Ok ((p :: out_rest) :: out_more) →
  last (oldest :: later) = Some (newest_first :: newest_rest) →
  forecast km (S n) (oldest :: later) predictions w
  = forecast km n (later ++ [p :: newest_rest])%list (predictions ++ [p])%list
      (emit Predicted w).
Proof.
  intros Hnet Hlast. cbn [forecast].
  rewrite run_modify_bind, run_lift_bind, Hnet, run_lift_bind.
  cbn [Np.getitem obind lookup list_lookup].
  rewrite run_lift_bind. unfold Np.getitem_last. rewrite Hlast.
  rewrite run_lift_bind. cbn [Np.setitem_first].
  rewrite run_lift_bind, roll_set_last. reflexivity.
Qed.


End forecast.

Section predict.
Context `{!Libs}.
Import DemandForecasting.





End predict.

(** ** The reference forecaster *)

Lemma sales_frame_wf (n : nat) : Pd.wf (Ref.sales_frame n).
Proof.
  intros k col. unfold Ref.sales_frame. simpl.
  rewrite !lookup_insert. repeat case_decide; try done;
    intros [= <-]; by rewrite length_map, length_seq.
Qed.


Lemma prepare_data_windows_witness :
  ∃ X y w1,
    DemandForecasting.prepare_data (H := Ref.libs)
      (Ref.demand_world (DemandForecasting.new_model 2 5) 4) = (Ok (X, y), w1)
    ∧ length X = 2 ∧ length y = 2.
Proof.
  destruct (DemandForecasting.scale_features (H := Ref.libs)
              (Ref.demand_world (DemandForecasting.new_model 2 5) 4))
    as [[scaled|e] w1] eqn:Hrun; [|vm_compute in Hrun; discriminate Hrun].
  destruct (@prepare_data_windows Ref.libs
              (Ref.demand_world (DemandForecasting.new_model 2 5) 4)
              w1 scaled (sales_frame_wf 4) Hrun)
    as (_ & X & y & Hprep & HX & Hy & _).
  exists X, y, w1. split; [exact Hprep|]. split; [exact HX | exact Hy].
Defined.

Lemma predict_short_table_witness :
  ∃ w1,
    DemandForecasting.predict (H := Ref.libs) (JInt 7)
      (Ref.demand_world
         (DemandForecasting.set_model (Some Ref.persistence_net)
            (DemandForecasting.new_model 2 5)) 2)
    = (Raise (Exn IndexError "index -1 is out of bounds for axis 0 with size 0"), w1).
Proof.
  destruct (DemandForecasting.scale_features (H := Ref.libs)
              (Ref.demand_world
                 (DemandForecasting.set_model (Some Ref.persistence_net)
                    (DemandForecasting.new_model 2 5)) 2))
    as [[scaled|e] w1] eqn:Hrun; [|vm_compute in Hrun; discriminate Hrun].
  exists w1.
  destruct (@predict_short_table Ref.libs
              (Ref.demand_world
                 (DemandForecasting.set_model (Some Ref.persistence_net)
                    (DemandForecasting.new_model 2 5)) 2)
              w1 scaled Ref.persistence_net (JInt 7)
              eq_refl (sales_frame_wf 2) Hrun (le_n 2)) as (_ & Hpred & _).
  exact Hpred.
Defined.

Lemma forecast_rolls_window_witness :
  DemandForecasting.forecast Ref.persistence_net 1 [[1; 2]; [3; 4]]%Q []
    (Ref.demand_world (DemandForecasting.new_model 2 2) 0)
  = DemandForecasting.forecast Ref.persistence_net 0 [[3; 4]; [3; 4]]%Q [3%Q]
      (DemandForecasting.emit DemandForecasting.Predicted
         (Ref.demand_world (DemandForecasting.new_model 2 2) 0)).
Proof.
  apply (forecast_rolls_window Ref.persistence_net 0 [1; 2]%Q [[3; 4]]%Q 3%Q [4%Q]
           3%Q [] [] [] _ eq_refl eq_refl).
Defined.


(** ** save_model, load_model and train *)

Section persistence.
Context `{!Libs, !DemandForecasting.Keras}.
Import DemandForecasting.

(** X5. What [save_model] uploads, [load_model] brings back: after a model
    with a network has been saved under a bucket and key, loading that
    bucket and key into any model object, in a world that has the same S3
    content, sets its network to the saved one and changes nothing else
    of the object. *)
Theorem save_then_load_restores (w : world) (km : KerasModel)
    (s3_bucket model_key : string) (other : DemandForecastingModel) :
  model (self w) = Some km →
  ∃ w1 w2,
    save_model s3_bucket model_key w = (Ok tt, w1)
    ∧ self w1 = self w
    ∧ load_model s3_bucket model_key (set_self other w1) = (Ok tt, w2)
    ∧ self w2 = set_model (Some km) other
    ∧ fs w2 !! local_path = Some (FModel km)
    ∧ s3 w2 = <[(s3_bucket, model_key) := FModel km]> (s3 w)
    ∧ log w2 = (log w ++ [Saved local_path;
                         Uploaded local_path s3_bucket model_key;
                         Downloaded s3_bucket model_key local_path])%list.
Proof.
  intros Hm. eexists _, _. split.
  { unfold save_model. rewrite run_get_bind, Hm. reflexivity. }
  split; [done|]. split.
  { unfold load_model. rewrite run_get_bind. simpl.
    rewrite lookup_insert_eq. reflexivity. }
  simpl. split; [done|]. split; [by rewrite lookup_insert_eq|]. split; [done|].
  by rewrite <- !app_assoc.
Qed.

(** X6. A first [train] whose [fit] fails leaves the object with the
    network that [build_model] has just built: [train] raises the error of
    [fit], but the [model] field is no longer [None], so a later
    [save_model] does not raise and uploads that unfitted network. *)
Theorem failed_train_leaves_built_model (w w1 : world) (X : list Np.matrix) (y : list Q)
    (e : exn) (s3_bucket model_key : string) :
  model (self w) = None →
  prepare_data w = (Ok (X, y), w1) →
  keras_fit (keras_sequential (sequence_length (self w)) (features (self w))) X y = Raise e →
  ∃ w2 w3,
    train w = (Raise e, w2)
    ∧ model (self w2)
      = Some (keras_sequential (sequence_length (self w)) (features (self w)))
    ∧ save_model s3_bucket model_key w2 = (Ok tt, w3)
    ∧ s3 w3 !! (s3_bucket, model_key)
      = Some (FModel (keras_sequential (sequence_length (self w)) (features (self w)))).
Proof.
  intros Hm Hprep Hfit.
  destruct (preserves_run _ _ _ _ _ prepare_data_frame_only Hprep)
    as (Hs & Hf & Hm1 & _).
  eexists _, _. split.
  { unfold train. rewrite run_bind, Hprep. cbv beta iota.
    rewrite run_get_bind, Hm1, Hm. unfold build_model.
    rewrite run_bind, run_get_bind, run_modify_bind. unfold ret at 1. cbv beta iota.
    cbn [fst snd]. rewrite Hs, Hf, run_lift_bind, Hfit. reflexivity. }
  simpl. split; [done|]. split.
  { unfold save_model. rewrite run_get_bind. simpl. reflexivity. }
  simpl. by rewrite lookup_insert_eq.
Qed.

(** X7. [train] on an object that already has a network fits that network:
    it does not build a new one. When [fit] returns, the fitted network is
    the [model] of the object. *)
Theorem train_refits_existing_model (w w1 : world) (X : list Np.matrix) (y : list Q)
    (km km' : KerasModel) :
  model (self w) = Some km →
  prepare_data w = (Ok (X, y), w1) →
  keras_fit km X y = Ok km' →
  train w = (Ok tt, set_self (set_model (Some km') (self w1)) w1).
Proof.
  intros Hm Hprep Hfit.
  destruct (preserves_run _ _ _ _ _ prepare_data_frame_only Hprep)
    as (_ & _ & Hm1 & _).
  unfold train. rewrite run_bind, Hprep. cbv beta iota.
  rewrite run_get_bind, Hm1, Hm, run_ret_bind. cbn [fst snd].
  rewrite run_lift_bind, Hfit. reflexivity.
Qed.

End persistence.

Lemma save_then_load_restores_witness :
  ∃ w1 w2,
    DemandForecasting.save_model "bharat-ai-hub-models" "demand-forecasting/model.h5"
      (Ref.demand_world
         (DemandForecasting.set_model (Some Ref.persistence_net)
            (DemandForecasting.new_model 30 5)) 0) = (Ok tt, w1)
    ∧ DemandForecasting.load_model "bharat-ai-hub-models" "demand-forecasting/model.h5"
        (DemandForecasting.set_self (DemandForecasting.new_model 30 5) w1) = (Ok tt, w2)
    ∧ DemandForecasting.model (DemandForecasting.self w2) = Some Ref.persistence_net.
Proof.
  destruct (save_then_load_restores
              (Ref.demand_world
                 (DemandForecasting.set_model (Some Ref.persistence_net)
                    (DemandForecasting.new_model 30 5)) 0)
              Ref.persistence_net "bharat-ai-hub-models" "demand-forecasting/model.h5"
              (DemandForecasting.new_model 30 5) eq_refl)
    as (w1 & w2 & Hsave & _ & Hload & Hself & _).
  exists w1, w2. split; [exact Hsave|]. split; [exact Hload|].
  rewrite Hself. reflexivity.
Defined.

Lemma failed_train_leaves_built_model_witness :
  ∃ e w2,
    DemandForecasting.train (H := Ref.libs) (H0 := Ref.failing_keras)
      (Ref.demand_world (DemandForecasting.new_model 2 5) 4) = (Raise e, w2)
    ∧ DemandForecasting.model (DemandForecasting.self w2) = Some Ref.persistence_net.
Proof.
  destruct (DemandForecasting.prepare_data (H := Ref.libs)
              (Ref.demand_world (DemandForecasting.new_model 2 5) 4))
    as [[[X y]|e] w1] eqn:Hprep; [|vm_compute in Hprep; discriminate Hprep].
  destruct (@failed_train_leaves_built_model Ref.libs Ref.failing_keras
              (Ref.demand_world (DemandForecasting.new_model 2 5) 4) w1 X y
              (Exn ValueError "Expected input data to be non-empty.")
              "bharat-ai-hub-models" "demand-forecasting/model.h5"
              eq_refl Hprep eq_refl)
    as (w2 & w3 & Htrain & Hm & _).
  eexists _, w2. split; [exact Htrain | exact Hm].
Defined.

Lemma train_refits_existing_model_witness :
  ∃ w2,
    DemandForecasting.train (H := Ref.libs) (H0 := Ref.keras)
      (Ref.demand_world
         (DemandForecasting.set_model (Some Ref.persistence_net)
            (DemandForecasting.new_model 2 5)) 4) = (Ok tt, w2).
Proof.
  destruct (DemandForecasting.prepare_data (H := Ref.libs)
              (Ref.demand_world
                 (DemandForecasting.set_model (Some Ref.persistence_net)
                    (DemandForecasting.new_model 2 5)) 4))
    as [[[X y]|e] w1] eqn:Hprep; [|vm_compute in Hprep; discriminate Hprep].
  eexists.
  exact (@train_refits_existing_model Ref.libs Ref.keras
           (Ref.demand_world
              (DemandForecasting.set_model (Some Ref.persistence_net)
                 (DemandForecasting.new_model 2 5)) 4)
           w1 X y Ref.persistence_net Ref.persistence_net eq_refl Hprep eq_refl).
Defined.
